(** * Schema-driven dummy data generator: model and properties

    A shallow embedding of [dummy_data_generator.py] (class [DataGenerator]
    and its method [generate_dummy_data]) together with the properties its
    specification states about it.

    Modelling conventions.
    - The schema is whatever [json.load] returns: an arbitrary JSON value.
    - Python exceptions are an explicit outcome; the state (files, standard
      output, random streams) survives an exception, as it does in Python.
    - Strings are sequences of 8-bit characters; case folding and the digit
      class [\d] are the ASCII ones.
    - A Python [float] is idealised as an exact rational: arithmetic and
      [round] are exact, only the conversion of an integer that exceeds the
      range of a double ([OverflowError]) is kept.
    - The pseudo-random generators are streams of raw draws; every
      primitive reduces a draw into the range its documentation promises.
    - File-system calls succeed (permissions and disk space are not
      modelled); [json.dumps] emits one line without a line break, so a
      file is the list of the records written to it, one per line. *)

From Stdlib Require Import Ascii String QArith Lqa.
From stdpp Require Import gmap strings list fin_maps pretty.

Open Scope string_scope.
Open Scope Z_scope.

(** ** JSON documents, as returned by [json.load] *)

#[local] Unset Elimination Schemes.
Inductive json :=
  | JNull
  | JBool (b : bool)
  | JInt (n : Z)
  | JFloat (q : Q)
  | JStr (s : string)
  | JArr (l : list json)
  | JObj (o : list (string * json)).
#[local] Set Elimination Schemes.

(** A Python [dict] with string keys, in insertion order; [json.load]
    keeps one entry per key, so the keys are pairwise distinct. *)
Fixpoint dict_get (k : string) (o : list (string * json)) : option json :=
  match o with
  | [] => None
  | (k', v) :: o' => if String.eqb k k' then Some v else dict_get k o'
  end.

Definition dict_keys (o : list (string * json)) : list json :=
  map (λ kv, JStr (fst kv)) o.

(** ** Python exceptions and the values put in a record *)

Inductive exn :=
  | KeyError
  | TypeError
  | AttributeError
  | OverflowError
  | NonStringName.
(** [NonStringName] is not a Python exception: it marks a field whose
    [name] is [null], a boolean or a number.  Python accepts such a key;
    records here are keyed by strings, so the run is left untracked. *)

Inductive value :=
  | VInt (n : Z)
  | VStr (s : string)
  | VFloat (x : Q).

(** ** Strings *)

Definition is_upper (c : ascii) : bool :=
  let n := N_of_ascii c in ((65 <=? n) && (n <=? 90))%N.

Definition lower_char (c : ascii) : ascii :=
  if is_upper c then ascii_of_N (N_of_ascii c + 32) else c.

(** [str.lower()] *)
Fixpoint lower (s : string) : string :=
  match s with
  | EmptyString => EmptyString
  | String c r => String (lower_char c) (lower r)
  end.

(** [s.startswith(p)] *)
Definition startswith (s p : string) : bool := String.prefix p s.

(** [s * n] for a string [s] and an integer [n]; empty when [n <= 0]. *)
Fixpoint str_repeat (s : string) (n : nat) : string :=
  match n with
  | O => EmptyString
  | S n' => s +:+ str_repeat s n'
  end.

Definition is_digit (c : ascii) : bool :=
  let n := N_of_ascii c in ((48 <=? n) && (n <=? 57))%N.

Definition digit_value (c : ascii) : Z := Z.of_N (N_of_ascii c) - 48.

(** The longest run of digits at the front of [s], and what follows it:
    what a greedy [\d*] consumes. *)
Fixpoint span_digits (s : string) : string * string :=
  match s with
  | EmptyString => (EmptyString, EmptyString)
  | String c r =>
      if is_digit c
      then let '(d, rest) := span_digits r in (String c d, rest)
      else (EmptyString, s)
  end.

(** [int(s)] for a string of digits. *)
Fixpoint int_of_digits_from (acc : Z) (s : string) : Z :=
  match s with
  | EmptyString => acc
  | String c r => int_of_digits_from (10 * acc + digit_value c) r
  end.

Definition int_of_digits (s : string) : Z := int_of_digits_from 0 s.

Fixpoint strip_prefix (p s : string) : option string :=
  match p with
  | EmptyString => Some s
  | String a p' =>
      match s with
      | EmptyString => None
      | String b s' => if Ascii.eqb a b then strip_prefix p' s' else None
      end
  end.

(** The characters of a string, as Python yields them when iterating. *)
Fixpoint str_chars (s : string) : list json :=
  match s with
  | EmptyString => []
  | String c r => JStr (String c EmptyString) :: str_chars r
  end.

(** [string.ascii_letters] *)
Definition ascii_letters : string :=
  "abcdefghijklmnopqrstuvwxyzABCDEFGHIJKLMNOPQRSTUVWXYZ".

(** [c in s] for a character [c]. *)
Fixpoint str_mem (c : ascii) (s : string) : bool :=
  match s with
  | EmptyString => false
  | String c' r => Ascii.eqb c c' || str_mem c r
  end.

Fixpoint str_forallb (P : ascii → bool) (s : string) : bool :=
  match s with
  | EmptyString => true
  | String c r => P c && str_forallb P r
  end.

(** ** Numbers *)

(** A Python number: an [int] of unbounded size or a [float]. *)
Inductive pynum :=
  | PInt (n : Z)
  | PFloat (x : Q).

(** An integer converts to a double unless rounding it to 53 bits reaches
    [2^1024]; the first such integer is [2^1024 - 2^970]. *)
Definition float_overflow_bound : Z := 2 ^ 1024 - 2 ^ 970.

Definition float_fits (n : Z) : bool := Z.abs n <? float_overflow_bound.

(** Round to the nearest integer, ties to the even one. *)
Definition round_half_even (x : Q) : Z :=
  let d := Z.pos (Qden x) in
  let f := Qnum x / d in
  let r := Qnum x mod d in
  if 2 * r <? d then f
  else if d <? 2 * r then f + 1
  else if Z.even f then f else f + 1.

Definition pow10 (n : Z) : Q := inject_Z (10 ^ n).

(** [round(x, ndigits)] on a float. *)
Definition py_round (x : Q) (ndigits : Z) : Q :=
  if 0 <=? ndigits
  then (inject_Z (round_half_even (x * pow10 ndigits)) / pow10 ndigits)%Q
  else (inject_Z (round_half_even (x / pow10 (- ndigits))) * pow10 (- ndigits))%Q.

(** ** The state of a run and the monad of the generator *)

(** A record under construction: the Python [dict] named [record]. *)
Abbreviation record := (gmap string value).

Record World := {
  rand : list N;                      (* draws left for module [random] *)
  fake_rand : list N;                 (* draws left for the Faker instance *)
  dirs : gset string;                 (* directories created *)
  files : gmap string (list record);  (* path -> lines written *)
  stdout : list string                (* lines printed *)
}.

Inductive outcome (A : Type) :=
  | Ok (a : A)
  | Raise (e : exn).
Arguments Ok {A} a.
Arguments Raise {A} e.

Definition M (A : Type) : Type := World → outcome A * World.

Definition ret {A} (a : A) : M A := λ w, (Ok a, w).

Definition raise {A} (e : exn) : M A := λ w, (Raise e, w).

Definition bind {A B} (m : M A) (k : A → M B) : M B :=
  λ w, match m w with
       | (Ok a, w') => k a w'
       | (Raise e, w') => (Raise e, w')
       end.

Notation "'let*' x ':=' m 'in' k" := (bind m (λ x, k))
  (at level 10, x name, m at level 100, k at level 200,
   format "'let*'  x  ':='  m  'in'  '/' k").
Notation "'do' m 'then' k" := (bind m (λ _, k))
  (at level 10, m at level 100, k at level 200,
   format "'do'  m  'then'  '/' k").

(** One raw draw; an exhausted stream keeps giving [0]. *)
Definition draw (t : list N) : N * list N :=
  match t with
  | [] => (0%N, [])
  | x :: t' => (x, t')
  end.

Definition draw_rand : M N := λ w,
  let '(x, t) := draw (rand w) in
  (Ok x, {| rand := t; fake_rand := fake_rand w; dirs := dirs w;
            files := files w; stdout := stdout w |}).

Definition draw_fake : M N := λ w,
  let '(x, t) := draw (fake_rand w) in
  (Ok x, {| rand := rand w; fake_rand := t; dirs := dirs w;
            files := files w; stdout := stdout w |}).

(** *** Python built-ins used by the generator *)

(** [obj[key]] for a string [key]: only a [dict] can be indexed by one. *)
Definition getitem (obj : json) (key : string) : M json :=
  match obj with
  | JObj o => match dict_get key o with
              | Some v => ret v
              | None => raise KeyError
              end
  | _ => raise TypeError
  end.

(** [obj.get(key, default)] *)
Definition get (obj : json) (key : string) (default : json) : M json :=
  match obj with
  | JObj o => match dict_get key o with
              | Some v => ret v
              | None => ret default
              end
  | _ => raise AttributeError
  end.

(** [x.lower()]: only strings have the method. *)
Definition lower_method (x : json) : M string :=
  match x with
  | JStr s => ret (lower s)
  | _ => raise AttributeError
  end.

(** [isinstance(x, dict)] *)
Definition isinstance_dict (x : json) : bool :=
  match x with
  | JObj _ => true
  | _ => false
  end.

(** [x == s] for a string literal [s]. *)
Definition eq_str (x : json) (s : string) : bool :=
  match x with
  | JStr s' => String.eqb s' s
  | _ => false
  end.

(** [key in obj] for an [obj] known to be a [dict]. *)
Definition contains (obj : json) (key : string) : bool :=
  match obj with
  | JObj o => bool_decide (is_Some (dict_get key o))
  | _ => false
  end.

(** [s * n]: [n] must be an [int] (a [bool] is one). *)
Definition str_mul (s : string) (n : json) : M string :=
  match n with
  | JInt k => ret (str_repeat s (Z.to_nat k))
  | JBool b => ret (str_repeat s (if b then 1%nat else 0%nat))
  | _ => raise TypeError
  end.

(** [for x in obj]: the sequence of items iterated over. *)
Definition iter (obj : json) : M (list json) :=
  match obj with
  | JArr l => ret l
  | JObj o => ret (dict_keys o)
  | JStr s => ret (str_chars s)
  | _ => raise TypeError
  end.

(** [record[name] = v]: a list or a dict is not hashable. *)
Definition setitem (r : record) (name : json) (v : value) : M record :=
  match name with
  | JStr k => ret (<[k := v]> r)
  | JArr _ | JObj _ => raise TypeError
  | _ => raise NonStringName
  end.

(** *** Module [random] *)

(** [random.random()]: a multiple of [2^-53] in [[0, 1)]. *)
Definition random : M Q :=
  let* k := draw_rand in
  ret (Qmake (Z.of_N k mod 2 ^ 53) (2 ^ 53)).

(** [random.randint(a, b)] for [a <= b]. *)
Definition randint (a b : Z) : M Z :=
  let* k := draw_rand in
  ret (a + Z.of_N k mod (b - a + 1)).

(** [float(x)] as Python applies it to an operand of mixed arithmetic. *)
Definition to_float (x : pynum) : M Q :=
  match x with
  | PInt n => if float_fits n then ret (inject_Z n) else raise OverflowError
  | PFloat q => ret q
  end.

(** [x - y] *)
Definition py_sub (x y : pynum) : M pynum :=
  match x, y with
  | PInt a, PInt b => ret (PInt (a - b))
  | _, _ => let* a := to_float x in let* b := to_float y in ret (PFloat (a - b)%Q)
  end.

(** [10 ** e] for an [int] [e]: an [int] when [e >= 0], else a [float]
    computed from the operands converted to [float]. *)
Definition py_pow10 (e : Z) : M pynum :=
  if 0 <=? e then ret (PInt (10 ^ e))
  else
    let* _ := to_float (PInt e) in
    ret (PFloat (/ pow10 (- e))%Q).

(** [random.uniform(a, b)], that is [a + (b - a) * random()]. *)
Definition uniform (a b : pynum) : M Q :=
  let* d := py_sub b a in
  let* u := random in
  let* df := to_float d in
  let* af := to_float a in
  ret (af + df * u)%Q.

(** ** The Faker instance *)

(** The providers of Faker the generator calls.  What text they return is
    left open: each one is a function of Faker's random stream.
    [date_time] returns a time stamp and [isoformat] is the method of the
    same name of the [datetime] object it stands for. *)
Module Faker.
Record t := {
  email : list N → string * list N;
  name : list N → string * list N;
  address : list N → string * list N;
  postcode : list N → string * list N;
  credit_card_number : list N → string * list N;
  date_time : list N → Z * list N;
  isoformat : Z → string;
  date : list N → string * list N;
  word : list N → string * list N
}.

(** Run a provider on the stream of the state. *)
Definition call {A} (f : list N → A * list N) : M A := λ w,
  let '(a, t) := f (fake_rand w) in
  (Ok a, {| rand := rand w; fake_rand := t; dirs := dirs w;
            files := files w; stdout := stdout w |}).

(** [random_element(letters)] for a non-empty string [letters]. *)
Definition random_element (letters : string) : M ascii :=
  let* k := draw_fake in
  let i := (k mod N.of_nat (String.length letters))%N in
  ret (default "a"%char (String.get (N.to_nat i) letters)).

(** [lexify(text)]: every question mark of [text] becomes a random
    letter of [string.ascii_letters]. *)
Fixpoint lexify (text : string) : M string :=
  match text with
  | EmptyString => ret EmptyString
  | String c r =>
      let* c' := (if Ascii.eqb c "?" then random_element ascii_letters
                  else ret c) in
      let* r' := lexify r in
      ret (String c' r')
  end.
End Faker.

(** ** Class [DataGenerator] *)

Record DataGenerator := { fake : Faker.t }.

(** [handle_complex_type(self, field)]: [Some s] for the string
    returned, [None] for Python's [None]. *)
Definition handle_complex_type (self : DataGenerator) (field : json)
  : M (option string) :=
  let* t := getitem field "type" in
  if isinstance_dict t then
    let* inner := getitem t "type" in
    if eq_str inner "string" && contains t "maxLength" then
      let* max_length := getitem t "maxLength" in
      let* text := str_mul "?" max_length in
      let* s := Faker.lexify text in
      ret (Some s)
    else ret None
  else ret None.

(** [parse_number_format(self, doc)]: [re.match] of
    [number\((\d+),(\d+)\)] at the start of [doc]; text after the closing
    parenthesis is accepted. *)
Definition parse_number_format (doc : string) : option (Z * Z) :=
  match strip_prefix "number(" doc with
  | None => None
  | Some r1 =>
      let '(p, r2) := span_digits r1 in
      match p, r2 with
      | String _ _, String "," r3 =>
          let '(s, r4) := span_digits r3 in
          match s, r4 with
          | String _ _, String ")" _ => Some (int_of_digits p, int_of_digits s)
          | _, _ => None
          end
      | _, _ => None
      end
  end.

(** The body of the loop over fields (lines 89 to 128): visit one field
    definition and return the record as it is afterwards. *)
Definition visit_field (self : DataGenerator) (field : json) (r : record)
  : M record :=
  let* field_name := getitem field "name" in
  let* field_type := getitem field "type" in
  let* d := get field "doc" (JStr "") in
  let* doc := lower_method d in
  let* complex_value := handle_complex_type self field in
  match complex_value with
  | Some s => setitem r field_name (VStr s)
  | None =>
      if eq_str field_type "int" then
        let* n := randint 0 999999 in
        setitem r field_name (VInt n)
      else if eq_str field_type "string" then
        if String.eqb doc "email" then
          let* s := Faker.call (Faker.email (fake self)) in
          setitem r field_name (VStr s)
        else if String.eqb doc "name" then
          let* s := Faker.call (Faker.name (fake self)) in
          setitem r field_name (VStr s)
        else if String.eqb doc "address" then
          let* s := Faker.call (Faker.address (fake self)) in
          setitem r field_name (VStr s)
        else if String.eqb doc "postcode" then
          let* s := Faker.call (Faker.postcode (fake self)) in
          setitem r field_name (VStr s)
        else if String.eqb doc "credit_card_number" then
          let* s := Faker.call (Faker.credit_card_number (fake self)) in
          setitem r field_name (VStr s)
        else if String.eqb doc "timestamp_ntz" then
          let* t := Faker.call (Faker.date_time (fake self)) in
          setitem r field_name (VStr (Faker.isoformat (fake self) t))
        else if String.eqb doc "date" then
          let* s := Faker.call (Faker.date (fake self)) in
          setitem r field_name (VStr s)
        else
          let* s := Faker.call (Faker.word (fake self)) in
          setitem r field_name (VStr s)
      else if eq_str field_type "double" then
        if startswith doc "number(" then
          match parse_number_format doc with
          | Some (precision, scale) =>
              let* p := py_pow10 (precision - scale) in
              let* max_value := py_sub p (PInt 1) in
              let* x := uniform (PInt 0) max_value in
              setitem r field_name (VFloat (py_round x scale))
          | None => ret r
          end
        else
          let* x := uniform (PInt 0) (PInt 99999999) in
          setitem r field_name (VFloat (py_round x 2))
      else ret r
  end.

(** [for field in ...]: the fields are visited in order. *)
Fixpoint visit_fields (self : DataGenerator) (fields : list json) (r : record)
  : M record :=
  match fields with
  | [] => ret r
  | field :: rest =>
      let* r' := visit_field self field r in
      visit_fields self rest r'
  end.

(** [os.makedirs(folder, exist_ok=True)] *)
Definition makedirs (folder : string) : M unit := λ w,
  (Ok tt, {| rand := rand w; fake_rand := fake_rand w;
             dirs := {[folder]} ∪ dirs w;
             files := files w; stdout := stdout w |}).

(** [os.path.join(folder, file)] for a [file] that is not absolute. *)
Definition path_join (folder file : string) : string :=
  if String.eqb folder "" then file
  else if String.eqb (substring (String.length folder - 1) 1 folder) "/"
       then folder +:+ file
       else folder +:+ "/" +:+ file.

(** [open(path, 'w')]: the file is created, or emptied if it exists. *)
Definition open_w (path : string) : M unit := λ w,
  (Ok tt, {| rand := rand w; fake_rand := fake_rand w; dirs := dirs w;
             files := <[path := []]> (files w); stdout := stdout w |}).

(** [outfile.write(json.dumps(record) + '\n')] *)
Definition write_line (path : string) (r : record) : M unit := λ w,
  (Ok tt, {| rand := rand w; fake_rand := fake_rand w; dirs := dirs w;
             files := <[path := (default [] (files w !! path) ++ [r])%list]> (files w);
             stdout := stdout w |}).

(** [print(line)] *)
Definition print (line : string) : M unit := λ w,
  (Ok tt, {| rand := rand w; fake_rand := fake_rand w; dirs := dirs w;
             files := files w; stdout := (stdout w ++ [line])%list |}).

(** One turn of the loop over records (lines 87 to 131). *)
Definition write_record (self : DataGenerator) (schema : json) (path : string)
  : M unit :=
  let* fields := getitem schema "fields" in
  let* items := iter fields in
  let* r := visit_fields self items ∅ in
  write_line path r.

(** [for _ in range(n)] *)
Fixpoint write_records (self : DataGenerator) (schema : json) (path : string)
  (n : nat) : M unit :=
  match n with
  | O => ret tt
  | S n' =>
      do write_record self schema path then
      write_records self schema path n'
  end.

(** The name of the output file: [{num_records}_{schema_name}.jsonl]
    inside [output_folder]. *)
Definition output_path (num_records : Z) (output_folder schema_name : string)
  : string :=
  path_join output_folder (pretty num_records +:+ "_" +:+ schema_name +:+ ".jsonl").

(** [generate_dummy_data(self, schema, num_records, output_folder,
    schema_name)] *)
Definition generate_dummy_data (self : DataGenerator) (schema : json)
  (num_records : Z) (output_folder schema_name : string) : M unit :=
  do makedirs output_folder then
  let output_file := output_path num_records output_folder schema_name in
  do open_w output_file then
  do write_records self schema output_file (Z.to_nat num_records) then
  print ("Dataset saved to " +:+ output_file).

(** ** Well-formed field definitions *)


(** The hint of a field: its [doc] in lower case, the empty string when
    there is none; [None] when [doc] is not a string. *)
Definition doc_of (o : list (string * json)) : option string :=
  match dict_get "doc" o with
  | None => Some EmptyString
  | Some (JStr s) => Some (lower s)
  | Some _ => None
  end.




(** The bound [10 ** (precision - scale) - 1] can be computed and
    multiplied by a float: the integer fits a double; for a negative
    exponent the exponent itself does. *)
Definition number_fits (precision scale : Z) : bool :=
  let e := precision - scale in
  if 0 <=? e then float_fits (10 ^ e - 1) else float_fits e.



(** The items the loop over [schema['fields']] visits, if it starts. *)
Definition items_of (fields : json) : list json :=
  match fields with
  | JArr l => l
  | JObj o => dict_keys o
  | JStr s => str_chars s
  | _ => []
  end.




(** The state once the output file is open: the folder exists and the
    file is empty. *)
Definition after_open (path folder : string) (w : World) : World :=
  {| rand := rand w; fake_rand := fake_rand w;
     dirs := {[folder]} ∪ dirs w;
     files := <[path := []]> (files w);
     stdout := stdout w |}.

(** The state after a run that writes no record and reports success. *)
Definition after_empty_run (path folder : string) (w : World) : World :=
  {| rand := rand w; fake_rand := fake_rand w;
     dirs := {[folder]} ∪ dirs w;
     files := <[path := []]> (files w);
     stdout := (stdout w ++ ["Dataset saved to " +:+ path])%list |}.

(** ** A Faker instance to run examples with *)

Definition fixed_provider (s : string) : list N → string * list N :=
  λ t, (s, snd (draw t)).

(** Every provider consumes one draw and returns a fixed text; a time
    stamp is rendered as its number of seconds. *)
Definition sample_faker : Faker.t := {|
  Faker.email := fixed_provider "jane@example.org";
  Faker.name := fixed_provider "Jane Doe";
  Faker.address := fixed_provider "1 Main Street";
  Faker.postcode := fixed_provider "12345";
  Faker.credit_card_number := fixed_provider "4000000000000002";
  Faker.date_time := λ t, (Z.of_N (fst (draw t)), snd (draw t));
  Faker.isoformat := λ z, pretty z;
  Faker.date := fixed_provider "2020-01-01";
  Faker.word := fixed_provider "word"
|}.

Definition sample_generator : DataGenerator := {| fake := sample_faker |}.

Definition world0 (rs fs : list N) : World :=
  {| rand := rs; fake_rand := fs; dirs := ∅; files := ∅; stdout := [] |}.

(** [isinstance(x, int)]: a [bool] is an [int]. *)
Definition is_int (x : json) : bool :=
  match x with
  | JInt _ | JBool _ => true
  | _ => false
  end.

(** A [fields] entry that is not a list and still makes the loop over
    fields fail: anything but a list, an empty object or an empty string. *)
Definition not_a_field_list (fields : json) : bool :=
  match fields with
  | JArr _ => false
  | JObj [] => false
  | JStr EmptyString => false
  | _ => true
  end.

(** The exception a computation ended with, if any. *)
Definition error_of {A} (x : outcome A * World) : option exn :=
  match fst x with
  | Ok _ => None
  | Raise e => Some e
  end.



(** ** Footprint *)

(** A computation that neither creates a directory, nor writes a file,
    nor prints, whether it returns or raises. *)
Definition frames {A} (m : M A) : Prop :=
  ∀ w o w', m w = (o, w') →
    dirs w' = dirs w ∧ files w' = files w ∧ stdout w' = stdout w.

(** ** Reasoning about the monad *)

Lemma bind_ok {A B} (m : M A) (k : A → M B) w a w' :
  m w = (Ok a, w') → bind m k w = k a w'.
Proof. intros H. unfold bind. by rewrite H. Qed.

Lemma bind_raise {A B} (m : M A) (k : A → M B) w e w' :
  m w = (Raise e, w') → bind m k w = (Raise e, w').
Proof. intros H. unfold bind. by rewrite H. Qed.

Lemma bind_ok_inv {A B} (m : M A) (k : A → M B) w b w2 :
  bind m k w = (Ok b, w2) →
  ∃ a w1, m w = (Ok a, w1) ∧ k a w1 = (Ok b, w2).
Proof.
  unfold bind. destruct (m w) as [[a|e] w1]; intros H.
  - by exists a, w1.
  - discriminate.
Qed.

Lemma getitem_obj o key v w :
  dict_get key o = Some v → getitem (JObj o) key w = (Ok v, w).
Proof. intros H. unfold getitem. by rewrite H. Qed.

(** The first statements of the loop body only read the field. *)
Lemma get_doc o doc w :
  doc_of o = Some doc →
  ∃ d, get (JObj o) "doc" (JStr "") w = (Ok d, w)
       ∧ lower_method d w = (Ok doc, w).
Proof.
  unfold doc_of, get. intros H.
  destruct (dict_get "doc" o) as [[]|]; simplify_eq; eexists; done.
Qed.

Ltac read_field Hn Ht Hd :=
  unfold visit_field;
  rewrite (bind_ok _ _ _ _ _ (getitem_obj _ _ _ _ Hn));
  rewrite (bind_ok _ _ _ _ _ (getitem_obj _ _ _ _ Ht));
  let d := fresh "d" in
  let Hg := fresh "Hg" in
  let Hl := fresh "Hl" in
  match goal with
  | |- context [bind (get (JObj ?o) "doc" _) _ ?w] =>
      destruct (get_doc o _ w Hd) as (d & Hg & Hl)
  end;
  rewrite (bind_ok _ _ _ _ _ Hg), (bind_ok _ _ _ _ _ Hl);
  clear d Hg Hl.

(** A primitive type tag is not a complex type. *)
Lemma handle_complex_type_prim self o t w :
  dict_get "type" o = Some t → isinstance_dict t = false →
  handle_complex_type self (JObj o) w = (Ok None, w).
Proof.
  intros Ht Hd. unfold handle_complex_type.
  rewrite (bind_ok _ _ _ _ _ (getitem_obj _ _ _ w Ht)). by rewrite Hd.
Qed.

Lemma randint_spec a b w :
  a ≤ b →
  ∃ n, randint a b w =
         (Ok n, {| rand := snd (draw (rand w)); fake_rand := fake_rand w;
                   dirs := dirs w; files := files w; stdout := stdout w |})
       ∧ a ≤ n ≤ b.
Proof.
  intros Hab. unfold randint, bind, draw_rand, ret.
  destruct (draw (rand w)) as [k t] eqn:Hk. simpl.
  eexists. split; [reflexivity|].
  pose proof (Z.mod_pos_bound (Z.of_N k) (b - a + 1)). lia.
Qed.

(** C2. A field whose type is the primitive tag "int" receives an
    integer between 0 and 999999, both included: visiting a field
    definition that has a name [nm], the type "int" and a usable [doc]
    stores such an integer under [nm], whatever the state of the random
    generator. *)
Theorem int_field_in_range self o nm r w :
  dict_get "name" o = Some (JStr nm) →
  dict_get "type" o = Some (JStr "int") →
  is_Some (doc_of o) →
  ∃ n w', visit_field self (JObj o) r w = (Ok (<[nm := VInt n]> r), w')
          ∧ 0 ≤ n ≤ 999999.
Proof.
  intros Hn Ht [doc Hd]. read_field Hn Ht Hd.
  rewrite (bind_ok _ _ _ _ _ (handle_complex_type_prim self _ _ w Ht eq_refl)).
  simpl.
  destruct (randint_spec 0 999999 w) as (n & Hr & Hrange); [lia|].
  exists n. eexists. rewrite (bind_ok _ _ _ _ _ Hr). done.
Qed.

Lemma int_field_in_range_witness :
  ∃ n w',
    visit_field sample_generator
      (JObj [("name", JStr "id"); ("type", JStr "int")]) ∅
      (world0 [1000003%N] [])
    = (Ok (<["id" := VInt n]> ∅), w')
    ∧ 0 ≤ n ≤ 999999.
Proof.
  apply (int_field_in_range sample_generator
           [("name", JStr "id"); ("type", JStr "int")] "id");
    [reflexivity|reflexivity|by eexists].
Defined.

(** ** Numbers: rounding, the unit draw and the range of a double *)

Lemma round_half_even_between a b x :
  (inject_Z a <= x)%Q → (x <= inject_Z b)%Q → a ≤ round_half_even x ≤ b.
Proof.
  destruct x as [n d]. unfold Qle, round_half_even. simpl.
  set (D := Z.pos d). intros Ha Hb.
  assert (0 < D) by (unfold D; lia).
  pose proof (Z.div_mod n D ltac:(lia)) as Hdm.
  pose proof (Z.mod_pos_bound n D ltac:(lia)) as Hr.
  repeat case_match; nia.
Qed.

Lemma pow10_pos n : 0 ≤ n → (0 < pow10 n)%Q.
Proof.
  intros Hn. unfold pow10. rewrite <- (Zlt_Qlt 0).
  by apply Z.pow_pos_nonneg.
Qed.

(** Rounding to [s >= 0] places keeps a value between two integers
    between them, and gives a multiple of [10^-s]. *)
Lemma py_round_between a b x s :
  0 ≤ s → (inject_Z a <= x)%Q → (x <= inject_Z b)%Q →
  (inject_Z a <= py_round x s)%Q ∧ (py_round x s <= inject_Z b)%Q.
Proof.
  intros Hs Ha Hb. unfold py_round.
  destruct (Z.leb_spec 0 s) as [_|]; [|lia].
  pose proof (pow10_pos s Hs) as Hp.
  destruct (round_half_even_between (a * 10 ^ s) (b * 10 ^ s) (x * pow10 s))
    as [Hlo Hhi].
  - rewrite inject_Z_mult. fold (pow10 s).
    apply Qmult_le_compat_r; [done|]. by apply Qlt_le_weak.
  - rewrite inject_Z_mult. fold (pow10 s).
    apply Qmult_le_compat_r; [done|]. by apply Qlt_le_weak.
  - split.
    + apply Qle_shift_div_l; [done|].
      unfold pow10. rewrite <- inject_Z_mult, <- Zle_Qle. done.
    + apply Qle_shift_div_r; [done|].
      unfold pow10. rewrite <- inject_Z_mult, <- Zle_Qle. done.
Qed.

Lemma py_round_decimal x s :
  0 ≤ s → ∃ k : Z, py_round x s = (inject_Z k / pow10 s)%Q.
Proof.
  intros Hs. unfold py_round.
  destruct (Z.leb_spec 0 s) as [_|]; [|lia]. by eexists.
Qed.

(** A draw of [random.random()] lies in [[0, 1)]. *)
Lemma random_spec w :
  ∃ u, random w =
         (Ok u, {| rand := snd (draw (rand w)); fake_rand := fake_rand w;
                   dirs := dirs w; files := files w; stdout := stdout w |})
       ∧ (0 <= u)%Q ∧ (u < 1)%Q.
Proof.
  unfold random, bind, draw_rand, ret.
  destruct (draw (rand w)) as [k t]. simpl.
  eexists. split; [reflexivity|].
  pose proof (Z.mod_pos_bound (Z.of_N k) (2 ^ 53) ltac:(lia)) as Hb.
  unfold Qle, Qlt. simpl. lia.
Qed.

(** Integers of at most 308 decimal digits convert to a double. *)
Lemma float_fits_pow10 e : 0 ≤ e ≤ 308 → float_fits (10 ^ e - 1) = true.
Proof.
  intros He. unfold float_fits. apply Z.ltb_lt.
  assert (0 < 10 ^ e) by (apply Z.pow_pos_nonneg; lia).
  assert (10 ^ e ≤ 10 ^ 308) by (apply Z.pow_le_mono_r; lia).
  assert (10 ^ 308 < float_overflow_bound) by (by vm_compute).
  lia.
Qed.

Lemma float_overflows_pow10 e : 309 ≤ e → float_fits (10 ^ e - 1) = false.
Proof.
  intros He. unfold float_fits. apply Z.ltb_ge.
  assert (10 ^ 309 ≤ 10 ^ e) by (apply Z.pow_le_mono_r; lia).
  assert (float_overflow_bound < 10 ^ 309 - 1) by (by vm_compute).
  lia.
Qed.

(** When the scale does not exceed the precision, an annotation fits
    exactly when the two differ by at most 308. *)
Lemma number_fits_bound precision scale :
  scale ≤ precision →
  number_fits precision scale = true ↔ precision - scale ≤ 308.
Proof.
  intros Hle. unfold number_fits.
  destruct (Z.leb_spec 0 (precision - scale)) as [_|]; [|lia].
  destruct (Z.le_gt_cases (precision - scale) 308) as [H|H].
  - rewrite float_fits_pow10 by lia. done.
  - rewrite float_overflows_pow10 by lia. split; [done|lia].
Qed.

(** [random.uniform(0, m)] for a non-negative integer [m] that fits a
    double. *)
Lemma uniform_int_spec m w :
  0 ≤ m → float_fits m = true →
  ∃ y, uniform (PInt 0) (PInt m) w =
         (Ok y, {| rand := snd (draw (rand w)); fake_rand := fake_rand w;
                   dirs := dirs w; files := files w; stdout := stdout w |})
       ∧ (0 <= y)%Q ∧ (y <= inject_Z m)%Q.
Proof.
  intros Hm Hfit. unfold uniform, py_sub.
  destruct (random_spec w) as (u & Hu & Hu0 & Hu1).
  rewrite (bind_ok _ _ w (PInt (m - 0)) w) by done.
  rewrite (bind_ok _ _ _ _ _ Hu).
  unfold to_float. rewrite Z.sub_0_r, Hfit.
  unfold bind, ret. simpl.
  eexists. split; [reflexivity|]. split.
  - rewrite Qplus_0_l. apply Qmult_le_0_compat; [|done].
    by rewrite <- (Zle_Qle 0).
  - rewrite Qplus_0_l. rewrite <- (Qmult_1_r (inject_Z m)) at 2.
    rewrite !(Qmult_comm (inject_Z m)).
    apply Qmult_le_compat_r; [by apply Qlt_le_weak|].
    by rewrite <- (Zle_Qle 0).
Qed.

(** ** The pattern of a numeric annotation *)

Lemma strip_prefix_startswith p s r :
  strip_prefix p s = Some r → startswith s p = true.
Proof.
  unfold startswith. revert s. induction p as [|a p IH]; intros s H.
  - by destruct s.
  - destruct s as [|b s]; [done|]. simpl in H |- *.
    destruct (Ascii.eqb_spec a b) as [->|]; [|done].
    destruct (ascii_dec b b); [|done]. by apply IH.
Qed.

Lemma span_digits_digits s d rest :
  span_digits s = (d, rest) → str_forallb is_digit d = true.
Proof.
  revert d rest. induction s as [|c s IH]; intros d rest H; simpl in H.
  - by simplify_eq.
  - destruct (is_digit c) eqn:Hc; [|by simplify_eq].
    destruct (span_digits s) as [d' rest'] eqn:Hs. simplify_eq. simpl.
    rewrite Hc. simpl. by eapply IH.
Qed.

Lemma digit_value_nonneg c : is_digit c = true → 0 ≤ digit_value c.
Proof.
  unfold is_digit, digit_value. intros H.
  apply andb_true_iff in H as [H _]. apply N.leb_le in H. lia.
Qed.

Lemma int_of_digits_from_nonneg s acc :
  str_forallb is_digit s = true → 0 ≤ acc → 0 ≤ int_of_digits_from acc s.
Proof.
  revert acc. induction s as [|c s IH]; intros acc H Hacc; simpl in *.
  - done.
  - apply andb_true_iff in H as [Hc Hs]. apply IH; [done|].
    pose proof (digit_value_nonneg c Hc). lia.
Qed.

(** A successful parse starts with the literal prefix and yields two
    non-negative integers. *)
Lemma parse_number_format_some doc p s :
  parse_number_format doc = Some (p, s) →
  startswith doc "number(" = true ∧ 0 ≤ p ∧ 0 ≤ s.
Proof.
  unfold parse_number_format. intros H.
  destruct (strip_prefix "number(" doc) as [r1|] eqn:Hpre; [|done].
  split; [by eapply strip_prefix_startswith|].
  destruct (span_digits r1) as [dp r2] eqn:Hp.
  destruct dp as [|c dp]; [done|]. destruct r2 as [|c2 r3]; [done|].
  destruct c2 as [[] [] [] [] [] [] [] []]; try done.
  destruct (span_digits r3) as [ds r4] eqn:Hs.
  destruct ds as [|c' ds]; [done|]. destruct r4 as [|c4 r5]; [done|].
  destruct c4 as [[] [] [] [] [] [] [] []]; try done.
  simplify_eq. split.
  - apply int_of_digits_from_nonneg; [by eapply span_digits_digits|done].
  - apply int_of_digits_from_nonneg; [by eapply span_digits_digits|done].
Qed.

(** C3, as amended. A field of type "double" whose doc, in lower case,
    parses as number(precision,scale) with
    scale <= precision <= scale + 308 receives a value between 0 and
    10^(precision - scale) - 1 that is rounded to [scale] decimal places:
    the value stored is [round(y, scale)] for a draw [y] of that range,
    lies in the range itself and is an integer multiple of 10^-scale. *)
Theorem double_number_in_range self o nm d precision scale r w :
  dict_get "name" o = Some (JStr nm) →
  dict_get "type" o = Some (JStr "double") →
  dict_get "doc" o = Some (JStr d) →
  parse_number_format (lower d) = Some (precision, scale) →
  scale ≤ precision ≤ scale + 308 →
  ∃ y x w',
    visit_field self (JObj o) r w = (Ok (<[nm := VFloat x]> r), w')
    ∧ x = py_round y scale
    ∧ (0 <= y)%Q ∧ (y <= inject_Z (10 ^ (precision - scale) - 1))%Q
    ∧ (0 <= x)%Q ∧ (x <= inject_Z (10 ^ (precision - scale) - 1))%Q
    ∧ ∃ k : Z, x = (inject_Z k / pow10 scale)%Q.
Proof.
  intros Hn Ht Hdoc Hparse Hrange.
  assert (doc_of o = Some (lower d)) as Hd by (unfold doc_of; by rewrite Hdoc).
  destruct (parse_number_format_some _ _ _ Hparse) as (Hstart & Hp & Hs).
  read_field Hn Ht Hd.
  rewrite (bind_ok _ _ _ _ _ (handle_complex_type_prim self _ _ w Ht eq_refl)).
  simpl. rewrite Hstart, Hparse.
  unfold py_pow10. destruct (Z.leb_spec 0 (precision - scale)) as [_|]; [|lia].
  set (e := precision - scale) in *.
  assert (0 < 10 ^ e) by (apply Z.pow_pos_nonneg; lia).
  rewrite (bind_ok _ _ w (PInt (10 ^ e)) w) by done.
  rewrite (bind_ok _ _ w (PInt (10 ^ e - 1)) w) by done.
  destruct (uniform_int_spec (10 ^ e - 1) w) as (y & Hu & Hy0 & Hy1);
    [lia|apply float_fits_pow10; lia|].
  rewrite (bind_ok _ _ _ _ _ Hu).
  destruct (py_round_between 0 (10 ^ e - 1) y scale Hs Hy0 Hy1) as [Hx0 Hx1].
  exists y, (py_round y scale). eexists.
  split; [done|]. repeat split; try done.
  by apply py_round_decimal.
Qed.

(** The example of C3: for the doc "number(5,2)" the value lies between
    0 and 999 and has at most two decimal places. *)
Lemma double_number_in_range_witness :
  ∃ y x w',
    visit_field sample_generator
      (JObj [("name", JStr "amount"); ("type", JStr "double");
             ("doc", JStr "NUMBER(5,2)")]) ∅ (world0 [12345%N] [])
    = (Ok (<["amount" := VFloat x]> ∅), w')
    ∧ x = py_round y 2
    ∧ (0 <= y)%Q ∧ (y <= inject_Z 999)%Q
    ∧ (0 <= x)%Q ∧ (x <= inject_Z 999)%Q
    ∧ ∃ k : Z, x = (inject_Z k / pow10 2)%Q.
Proof.
  apply (double_number_in_range sample_generator _ "amount" "NUMBER(5,2)" 5 2);
    [reflexivity|reflexivity|reflexivity|reflexivity|lia].
Defined.

(** C3 fails when the scale exceeds the precision: for the doc
    "NUMBER(1,2)" the bound 10^(1-2) - 1 is negative, and the draw 1/2 of
    the random generator yields the negative value -0.45. *)
Lemma double_number_negative_value :
  parse_number_format (lower "NUMBER(1,2)") = Some (1, 2)
  ∧ ∃ x w',
      visit_field sample_generator
        (JObj [("name", JStr "amount"); ("type", JStr "double");
               ("doc", JStr "NUMBER(1,2)")]) ∅ (world0 [(2 ^ 52)%N] [])
      = (Ok (<["amount" := VFloat x]> ∅), w')
      ∧ (x == -45 # 100)%Q ∧ ¬ (0 <= x)%Q.
Proof.
  split; [reflexivity|].
  eexists _, _. split; [vm_compute; reflexivity|].
  split; [reflexivity|]. intros H. vm_compute in H. by apply H.
Qed.

(** ** Complex types *)

Lemma str_get_mem i s c : String.get i s = Some c → str_mem c s = true.
Proof.
  revert i. induction s as [|c' s IH]; intros i H; simpl in *; [done|].
  destruct i as [|i].
  - simplify_eq. by rewrite Ascii.eqb_refl.
  - rewrite (IH _ H). by rewrite orb_true_r.
Qed.

Lemma str_get_lt i s : (i < String.length s)%nat → is_Some (String.get i s).
Proof.
  revert i. induction s as [|c' s IH]; intros i H; simpl in *; [lia|].
  destruct i as [|i]; [by eexists|]. apply IH. lia.
Qed.

Lemma random_element_letter w :
  ∃ c w', Faker.random_element ascii_letters w = (Ok c, w')
          ∧ str_mem c ascii_letters = true.
Proof.
  unfold Faker.random_element, bind, draw_fake, ret.
  destruct (draw (fake_rand w)) as [k t]. cbn beta iota.
  eexists _, _. split; [reflexivity|].
  change (N.of_nat (String.length ascii_letters)) with 52%N.
  destruct (str_get_lt (N.to_nat (k mod 52)) ascii_letters) as [c Hc].
  { pose proof (N.mod_upper_bound k 52 ltac:(done)).
    change (String.length ascii_letters) with 52%nat. lia. }
  rewrite Hc. by eapply str_get_mem.
Qed.

(** [lexify] on a text of [n] question marks returns [n] letters. *)
Lemma lexify_question_marks n w :
  ∃ s w', Faker.lexify (str_repeat "?" n) w = (Ok s, w')
          ∧ String.length s = n
          ∧ str_forallb (λ c, str_mem c ascii_letters) s = true.
Proof.
  revert w. induction n as [|n IH]; intros w.
  - by exists EmptyString, w.
  - change (str_repeat "?" (S n)) with (String "?" (str_repeat "?" n)).
    cbn [Faker.lexify]. rewrite Ascii.eqb_refl.
    destruct (random_element_letter w) as (c & w1 & Hc & Hmem).
    rewrite (bind_ok _ _ _ _ _ Hc).
    destruct (IH w1) as (s & w2 & Hs & Hlen & Hall).
    rewrite (bind_ok _ _ _ _ _ Hs).
    exists (String c s), w2. split; [done|].
    cbn [String.length str_forallb]. by rewrite Hlen, Hmem, Hall.
Qed.



(** A nested type that has an inner [type] key but is not a string with
    a [maxLength] gives no value: the record is left as it is. *)
Lemma nested_other_shape_omitted self o t nmj inner r w :
  dict_get "name" o = Some nmj →
  dict_get "type" o = Some (JObj t) →
  is_Some (doc_of o) →
  dict_get "type" t = Some inner →
  eq_str inner "string" && contains (JObj t) "maxLength" = false →
  handle_complex_type self (JObj o) w = (Ok None, w)
  ∧ visit_field self (JObj o) r w = (Ok r, w).
Proof.
  intros Hn Ht [doc Hd] Hinner Hshape.
  assert (handle_complex_type self (JObj o) w = (Ok None, w)) as Hc.
  { unfold handle_complex_type.
    rewrite (bind_ok _ _ _ _ _ (getitem_obj _ _ _ w Ht)).
    cbn [isinstance_dict].
    rewrite (bind_ok _ _ _ _ _ (getitem_obj _ _ _ w Hinner)).
    by rewrite Hshape. }
  split; [done|].
  read_field Hn Ht Hd. by rewrite (bind_ok _ _ _ _ _ Hc).
Qed.

(** C5, where the code departs from it. A nested type without an inner
    [type] key is not skipped: [handle_complex_type] reads
    [field['type']['type']] and the loop body ends with [KeyError]. *)
Theorem nested_type_without_type_key_raises self o t nmj r w :
  dict_get "name" o = Some nmj →
  dict_get "type" o = Some (JObj t) →
  is_Some (doc_of o) →
  dict_get "type" t = None →
  handle_complex_type self (JObj o) w = (Raise KeyError, w)
  ∧ visit_field self (JObj o) r w = (Raise KeyError, w).
Proof.
  intros Hn Ht [doc Hd] Hinner.
  assert (handle_complex_type self (JObj o) w = (Raise KeyError, w)) as Hc.
  { unfold handle_complex_type.
    rewrite (bind_ok _ _ _ _ _ (getitem_obj _ _ _ w Ht)). simpl.
    apply bind_raise. unfold getitem. by rewrite Hinner. }
  split; [done|].
  read_field Hn Ht Hd. by apply bind_raise.
Qed.

Lemma nested_type_without_type_key_raises_witness :
  handle_complex_type sample_generator
    (JObj [("name", JStr "code"); ("type", JObj [("maxLength", JInt 8)])])
    (world0 [] []) = (Raise KeyError, world0 [] [])
  ∧ visit_field sample_generator
      (JObj [("name", JStr "code"); ("type", JObj [("maxLength", JInt 8)])])
      ∅ (world0 [] []) = (Raise KeyError, world0 [] []).
Proof.
  apply (nested_type_without_type_key_raises sample_generator _
           [("maxLength", JInt 8)] (JStr "code"));
    [reflexivity|reflexivity|by eexists|reflexivity].
Defined.

(** C7. A field of type "double" whose doc, in lower case, starts with
    "number(" but is not matched by the pattern receives no value: the
    loop body returns the record unchanged and raises nothing. *)
Theorem double_unparsed_number_omitted self o nmj d r w :
  dict_get "name" o = Some nmj →
  dict_get "type" o = Some (JStr "double") →
  dict_get "doc" o = Some (JStr d) →
  startswith (lower d) "number(" = true →
  parse_number_format (lower d) = None →
  visit_field self (JObj o) r w = (Ok r, w).
Proof.
  intros Hn Ht Hdoc Hstart Hparse.
  assert (doc_of o = Some (lower d)) as Hd by (unfold doc_of; by rewrite Hdoc).
  read_field Hn Ht Hd.
  rewrite (bind_ok _ _ _ _ _ (handle_complex_type_prim self _ _ w Ht eq_refl)).
  simpl. by rewrite Hstart, Hparse.
Qed.

Lemma double_unparsed_number_omitted_witness :
  visit_field sample_generator
    (JObj [("name", JStr "amount"); ("type", JStr "double");
           ("doc", JStr "NUMBER(5;2)")]) ∅ (world0 [9%N] [])
  = (Ok ∅, world0 [9%N] []).
Proof.
  apply (double_unparsed_number_omitted sample_generator _ (JStr "amount")
           "NUMBER(5;2)"); reflexivity.
Defined.

(** ** Runs that write nothing, and schemas without fields *)

(** C10. A negative record count raises nothing: the output file is
    created empty, no record is written and success is reported, as for
    a count of 0. *)
Theorem negative_count_empty_file self schema n folder sname w :
  n < 0 →
  generate_dummy_data self schema n folder sname w
  = (Ok tt, after_empty_run (output_path n folder sname) folder w)
  ∧ generate_dummy_data self schema 0 folder sname w
    = (Ok tt, after_empty_run (output_path 0 folder sname) folder w)
  ∧ files (after_empty_run (output_path n folder sname) folder w)
      !! output_path n folder sname = Some [].
Proof.
  intros Hn. split; [|split].
  - destruct n as [|p|p]; [lia|lia|]. reflexivity.
  - reflexivity.
  - unfold after_empty_run. simpl. apply lookup_insert_eq.
Qed.

Lemma negative_count_empty_file_witness :
  generate_dummy_data sample_generator (JObj []) (-3) "out" "s" (world0 [] [])
  = (Ok tt, after_empty_run (output_path (-3) "out" "s") "out" (world0 [] []))
  ∧ generate_dummy_data sample_generator (JObj []) 0 "out" "s" (world0 [] [])
    = (Ok tt, after_empty_run (output_path 0 "out" "s") "out" (world0 [] []))
  ∧ files (after_empty_run (output_path (-3) "out" "s") "out" (world0 [] []))
      !! output_path (-3) "out" "s" = Some [].
Proof. apply negative_count_empty_file. lia. Defined.

Lemma getitem_missing schema w :
  contains schema "fields" = false →
  getitem schema "fields" w
  = (Raise (if isinstance_dict schema then KeyError else TypeError), w).
Proof.
  intros H. destruct schema as [| | | | | |o]; try done.
  simpl in *. destruct (dict_get "fields" o); [|done].
  by rewrite bool_decide_eq_true_2 in H by by eexists.
Qed.

(** C6, as amended. For a schema without a [fields] key every run that
    asks for at least one record ends with an error raised when the
    fields are first read: [KeyError] for an object, [TypeError] for any
    other document.  By then the output file exists and is empty, and
    nothing has been printed. *)
Theorem missing_fields_raises self schema n folder sname w :
  contains schema "fields" = false →
  0 < n →
  generate_dummy_data self schema n folder sname w
  = (Raise (if isinstance_dict schema then KeyError else TypeError),
     after_open (output_path n folder sname) folder w).
Proof.
  intros Hf Hn. unfold generate_dummy_data.
  destruct (Z.to_nat n) as [|m] eqn:Hm; [lia|].
  unfold bind at 1. unfold makedirs at 1.
  unfold bind at 1. unfold open_w at 1. cbn [rand fake_rand dirs files stdout].
  fold (after_open (output_path n folder sname) folder w).
  apply bind_raise. cbn [write_records]. apply bind_raise.
  unfold write_record. apply bind_raise. by apply getitem_missing.
Qed.

Lemma missing_fields_raises_witness :
  generate_dummy_data sample_generator (JObj [("name", JStr "s")]) 1
    "out" "s" (world0 [] [])
  = (Raise KeyError, after_open (output_path 1 "out" "s") "out" (world0 [] [])).
Proof.
  apply (missing_fields_raises sample_generator (JObj [("name", JStr "s")]) 1);
    [reflexivity|lia].
Defined.

(** C6 fails for a count of 0: the fields are never read and the run
    succeeds. *)
Lemma missing_fields_zero_records_succeeds :
  contains (JObj []) "fields" = false
  ∧ generate_dummy_data sample_generator (JObj []) 0 "out" "s" (world0 [] [])
    = (Ok tt, after_empty_run (output_path 0 "out" "s") "out" (world0 [] [])).
Proof. split; reflexivity. Qed.

(** ** What the loop body leaves untouched *)

Lemma frames_ret {A} (a : A) : frames (ret a).
Proof. intros w o w' H. unfold ret in H. by simplify_eq. Qed.

Lemma frames_raise {A} e : frames (@raise A e).
Proof. intros w o w' H. unfold raise in H. by simplify_eq. Qed.

Lemma frames_bind {A B} (m : M A) (k : A → M B) :
  frames m → (∀ a, frames (k a)) → frames (bind m k).
Proof.
  intros Hm Hk w o w' H. unfold bind in H.
  destruct (m w) as [[a|e] w1] eqn:Hmw.
  - destruct (Hm _ _ _ Hmw) as (H1 & H2 & H3).
    destruct (Hk _ _ _ _ H) as (H4 & H5 & H6).
    repeat split; congruence.
  - simplify_eq. by eapply Hm.
Qed.

Lemma frames_draw_rand : frames draw_rand.
Proof.
  intros w o w' H. unfold draw_rand in H.
  destruct (draw (rand w)). by simplify_eq.
Qed.

Lemma frames_draw_fake : frames draw_fake.
Proof.
  intros w o w' H. unfold draw_fake in H.
  destruct (draw (fake_rand w)). by simplify_eq.
Qed.

Lemma frames_call {A} (f : list N → A * list N) : frames (Faker.call f).
Proof.
  intros w o w' H. unfold Faker.call in H.
  destruct (f (fake_rand w)). by simplify_eq.
Qed.

Ltac frames_step :=
  first
    [ apply frames_ret | apply frames_raise | apply frames_draw_rand
    | apply frames_draw_fake | apply frames_call
    | apply frames_bind; [|intros ?]
    | match goal with
      | |- frames (match ?x with _ => _ end) => destruct x
      end ].

Lemma frames_lexify text : frames (Faker.lexify text).
Proof.
  induction text as [|c text IH]; cbn [Faker.lexify]; [apply frames_ret|].
  apply frames_bind.
  - destruct (Ascii.eqb c "?"); [|apply frames_ret].
    unfold Faker.random_element. repeat frames_step.
  - intros c'. apply frames_bind; [done|]. intros s. apply frames_ret.
Qed.

Lemma frames_getitem obj key : frames (getitem obj key).
Proof. unfold getitem. repeat frames_step. Qed.

Lemma frames_iter obj : frames (iter obj).
Proof. unfold iter. repeat frames_step. Qed.

Lemma frames_setitem r nmj v : frames (setitem r nmj v).
Proof. unfold setitem. repeat frames_step. Qed.

Lemma frames_to_float x : frames (to_float x).
Proof. unfold to_float. repeat frames_step. Qed.

Lemma frames_uniform a b : frames (uniform a b).
Proof.
  unfold uniform, py_sub, random.
  repeat first [apply frames_to_float | frames_step].
Qed.

Lemma frames_handle_complex_type self field :
  frames (handle_complex_type self field).
Proof.
  unfold handle_complex_type, getitem, str_mul.
  repeat first [apply frames_lexify | frames_step].
Qed.

Lemma frames_visit_field self field r : frames (visit_field self field r).
Proof.
  unfold visit_field, getitem, get, lower_method, randint, py_pow10, py_sub.
  repeat first [apply frames_handle_complex_type | apply frames_setitem
               | apply frames_uniform | apply frames_to_float | frames_step].
Qed.

Lemma frames_visit_fields self fields r : frames (visit_fields self fields r).
Proof.
  revert r. induction fields as [|f fields IH]; intros r; simpl.
  - apply frames_ret.
  - apply frames_bind; [apply frames_visit_field|done].
Qed.

(** ** One field at a time *)






(** ** The records of a run *)







(** ** Fields that are visited without an error *)

Lemma float_fits_small n : 0 ≤ n ≤ 1 → float_fits n = true.
Proof.
  intros Hn. unfold float_fits. apply Z.ltb_lt.
  assert (1 < float_overflow_bound) by (by vm_compute). lia.
Qed.

Lemma to_float_int n w :
  float_fits n = true → to_float (PInt n) w = (Ok (inject_Z n), w).
Proof. intros H. unfold to_float. by rewrite H. Qed.

Lemma uniform_float_total q w :
  ∃ x w', uniform (PInt 0) (PFloat q) w = (Ok x, w').
Proof.
  unfold uniform, py_sub.
  rewrite (bind_ok _ _ w (PFloat (q - inject_Z 0)) w).
  2: { rewrite (bind_ok _ _ w q w) by done.
       rewrite (bind_ok _ _ _ _ _ (to_float_int 0 w (float_fits_small 0 ltac:(lia)))).
       done. }
  destruct (random_spec w) as (u & Hu & _).
  rewrite (bind_ok _ _ _ _ _ Hu).
  rewrite (bind_ok _ _ _ (q - inject_Z 0)%Q _) by done.
  rewrite (bind_ok _ _ _ _ _ (to_float_int 0 _ (float_fits_small 0 ltac:(lia)))).
  by eexists _, _.
Qed.

(** The value of an annotated "double" is computed without an error
    when the annotation fits; [k] is what the code does with it. *)
Lemma number_value_total {B} precision scale (k : Q → M B) w :
  number_fits precision scale = true →
  ∃ x w',
    (let* p := py_pow10 (precision - scale) in
     let* max_value := py_sub p (PInt 1) in
     let* x := uniform (PInt 0) max_value in
     k x) w = k x w'.
Proof.
  unfold number_fits, py_pow10. intros Hfit.
  destruct (Z.leb_spec 0 (precision - scale)) as [He|He].
  - rewrite (bind_ok _ _ w (PInt (10 ^ (precision - scale))) w) by done.
    rewrite (bind_ok _ _ w (PInt (10 ^ (precision - scale) - 1)) w) by done.
    assert (0 < 10 ^ (precision - scale)) by (by apply Z.pow_pos_nonneg).
    destruct (uniform_int_spec (10 ^ (precision - scale) - 1) w)
      as (y & Hy & _); [lia|done|].
    rewrite (bind_ok _ _ _ _ _ Hy). by eexists _, _.
  - rewrite (bind_ok _ _ w (PFloat (/ pow10 (- (precision - scale)))) w).
    2: { by rewrite (bind_ok _ _ _ _ _ (to_float_int _ w Hfit)). }
    rewrite (bind_ok _ _ w
               (PFloat (/ pow10 (- (precision - scale)) - inject_Z 1)) w).
    2: { unfold py_sub.
         rewrite (bind_ok _ _ w (/ pow10 (- (precision - scale)))%Q w) by done.
         by rewrite (bind_ok _ _ _ _ _
                       (to_float_int 1 w (float_fits_small 1 ltac:(lia)))). }
    destruct (uniform_float_total
                (/ pow10 (- (precision - scale)) - inject_Z 1) w)
      as (x & w' & Hx).
    rewrite (bind_ok _ _ _ _ _ Hx). by eexists _, _.
Qed.

Lemma call_total {A} (f : list N → A * list N) w :
  ∃ a w', Faker.call f w = (Ok a, w').
Proof. unfold Faker.call. destruct (f (fake_rand w)). by eexists _, _. Qed.




(** ** Duplicate names *)



(** The record of the example: the word of the second definition of
    "id" replaces the integer of the first. *)
Example duplicate_names_example :
  ∃ w',
    visit_fields sample_generator
      [JObj [("name", JStr "id"); ("type", JStr "int")];
       JObj [("name", JStr "id"); ("type", JStr "string")];
       JObj [("name", JStr "n"); ("type", JStr "int")]]
      ∅ (world0 [7; 9]%N [3%N])
    = (Ok (<["n" := VInt 9]> (<["id" := VStr "word"]> (<["id" := VInt 7]> ∅))),
       w').
Proof. eexists. vm_compute. reflexivity. Qed.

(** When the last definition of a name gives no value (here an
    unrecognised type tag), the entry of the earlier one stays. *)
Example duplicate_names_last_omitted :
  ∃ w',
    visit_fields sample_generator
      [JObj [("name", JStr "id"); ("type", JStr "int")];
       JObj [("name", JStr "id"); ("type", JStr "boolean")]]
      ∅ (world0 [7; 9]%N [3%N])
    = (Ok (<["id" := VInt 7]> ∅), w').
Proof. eexists. vm_compute. reflexivity. Qed.

(** ** The number of lines written *)






(** ** Further properties of the loop body *)

(** X1. A field of type "double" whose hint does not start with
    "number(" receives a value between 0 and 99999999 rounded to two
    decimal places. *)
Theorem double_default_in_range self o nm doc r w :
  dict_get "name" o = Some (JStr nm) →
  dict_get "type" o = Some (JStr "double") →
  doc_of o = Some doc →
  startswith doc "number(" = false →
  ∃ y x w',
    visit_field self (JObj o) r w = (Ok (<[nm := VFloat x]> r), w')
    ∧ x = py_round y 2
    ∧ (0 <= y)%Q ∧ (y <= inject_Z 99999999)%Q
    ∧ (0 <= x)%Q ∧ (x <= inject_Z 99999999)%Q
    ∧ ∃ k : Z, x = (inject_Z k / pow10 2)%Q.
Proof.
  intros Hn Ht Hd Hstart. read_field Hn Ht Hd.
  rewrite (bind_ok _ _ _ _ _ (handle_complex_type_prim self _ _ w Ht eq_refl)).
  simpl. rewrite Hstart.
  destruct (uniform_int_spec 99999999 w) as (y & Hu & Hy0 & Hy1);
    [lia|by vm_compute|].
  rewrite (bind_ok _ _ _ _ _ Hu).
  destruct (py_round_between 0 99999999 y 2 ltac:(lia) Hy0 Hy1) as [Hx0 Hx1].
  exists y, (py_round y 2). eexists.
  split; [done|]. repeat split; try done.
  apply py_round_decimal. lia.
Qed.

Lemma double_default_in_range_witness :
  ∃ y x w',
    visit_field sample_generator
      (JObj [("name", JStr "price"); ("type", JStr "double");
             ("doc", JStr "Numeric(5,2)")]) ∅ (world0 [77%N] [])
    = (Ok (<["price" := VFloat x]> ∅), w')
    ∧ x = py_round y 2
    ∧ (0 <= y)%Q ∧ (y <= inject_Z 99999999)%Q
    ∧ (0 <= x)%Q ∧ (x <= inject_Z 99999999)%Q
    ∧ ∃ k : Z, x = (inject_Z k / pow10 2)%Q.
Proof.
  apply (double_default_in_range sample_generator _ "price" "numeric(5,2)");
    reflexivity.
Defined.

(** X2. A field of type "string" is never left out: whatever its hint,
    it receives a text, and producing it takes nothing from the stream
    of module [random]. *)
Theorem string_field_gets_text self o nm r w :
  dict_get "name" o = Some (JStr nm) →
  dict_get "type" o = Some (JStr "string") →
  is_Some (doc_of o) →
  ∃ s w',
    visit_field self (JObj o) r w = (Ok (<[nm := VStr s]> r), w')
    ∧ rand w' = rand w.
Proof.
  intros Hn Ht [doc Hd]. read_field Hn Ht Hd.
  rewrite (bind_ok _ _ _ _ _ (handle_complex_type_prim self _ _ w Ht eq_refl)).
  cbn [eq_str String.eqb Ascii.eqb Bool.eqb].
  repeat match goal with
         | |- context [if ?b then _ else _] => destruct b
         end;
    unfold Faker.call, bind;
    match goal with
    | |- context [let '(_, _) := ?f (fake_rand w) in _] =>
        destruct (f (fake_rand w)) as [a t]
    end;
    eexists _, _; (split; [reflexivity|reflexivity]).
Qed.

Lemma string_field_gets_text_witness :
  ∃ s w',
    visit_field sample_generator
      (JObj [("name", JStr "city"); ("type", JStr "string");
             ("doc", JStr "Town")]) ∅ (world0 [1%N] [2%N])
    = (Ok (<["city" := VStr s]> ∅), w')
    ∧ rand w' = rand (world0 [1%N] [2%N]).
Proof.
  apply (string_field_gets_text sample_generator _ "city");
    [reflexivity|reflexivity|by eexists].
Defined.

(** X3. The hint is read without regard to case: two field definitions
    with the same name and type whose [doc] differ only in the case of
    their letters are treated alike. *)
Theorem hint_case_insensitive self o1 o2 d1 d2 r w :
  dict_get "name" o1 = dict_get "name" o2 →
  dict_get "type" o1 = dict_get "type" o2 →
  dict_get "doc" o1 = Some (JStr d1) →
  dict_get "doc" o2 = Some (JStr d2) →
  lower d1 = lower d2 →
  visit_field self (JObj o1) r w = visit_field self (JObj o2) r w.
Proof.
  intros Hn Ht Hd1 Hd2 Hl.
  unfold visit_field, handle_complex_type, bind, getitem, get, lower_method.
  rewrite Hn, Ht, Hd1, Hd2. cbn beta iota. unfold ret at 3 6.
  by rewrite Hl.
Qed.

Lemma hint_case_insensitive_witness :
  visit_field sample_generator
    (JObj [("name", JStr "mail"); ("type", JStr "string");
           ("doc", JStr "EMAIL")]) ∅ (world0 [] [4%N])
  = visit_field sample_generator
      (JObj [("doc", JStr "eMail"); ("name", JStr "mail");
             ("type", JStr "string")]) ∅ (world0 [] [4%N]).
Proof.
  apply (hint_case_insensitive sample_generator _ _ "EMAIL" "eMail");
    reflexivity.
Defined.

(** X4. A type that is neither a nested object nor one of the tags
    "int", "string" and "double" gives no value: the record and the state
    are left as they are, and the name of the field is not looked at. *)
Theorem unknown_type_omitted self o nmj t r w :
  dict_get "name" o = Some nmj →
  dict_get "type" o = Some t →
  is_Some (doc_of o) →
  isinstance_dict t = false →
  eq_str t "int" = false →
  eq_str t "string" = false →
  eq_str t "double" = false →
  visit_field self (JObj o) r w = (Ok r, w).
Proof.
  intros Hn Ht [doc Hd] Hdict Hint Hstr Hdbl. read_field Hn Ht Hd.
  rewrite (bind_ok _ _ _ _ _ (handle_complex_type_prim self _ _ w Ht Hdict)).
  by rewrite Hint, Hstr, Hdbl.
Qed.

Lemma unknown_type_omitted_witness :
  visit_field sample_generator
    (JObj [("name", JArr []); ("type", JStr "boolean")]) ∅ (world0 [1%N] [2%N])
  = (Ok ∅, world0 [1%N] [2%N]).
Proof.
  apply (unknown_type_omitted sample_generator _ (JArr []) (JStr "boolean"));
    [reflexivity|reflexivity|by eexists|reflexivity..].
Defined.

(** X5. A [doc] that is not a string ends the visit with
    [AttributeError], whatever the type of the field, before any value is
    drawn. *)
Theorem non_string_doc_raises self o nmj t r w :
  dict_get "name" o = Some nmj →
  dict_get "type" o = Some t →
  doc_of o = None →
  visit_field self (JObj o) r w = (Raise AttributeError, w).
Proof.
  intros Hn Ht Hd. unfold visit_field.
  rewrite (bind_ok _ _ _ _ _ (getitem_obj _ _ _ _ Hn)).
  rewrite (bind_ok _ _ _ _ _ (getitem_obj _ _ _ _ Ht)).
  unfold doc_of in Hd. unfold bind, get, lower_method.
  destruct (dict_get "doc" o) as [[]|]; done.
Qed.

Lemma non_string_doc_raises_witness :
  visit_field sample_generator
    (JObj [("name", JStr "id"); ("type", JStr "int"); ("doc", JNull)])
    ∅ (world0 [1%N] [])
  = (Raise AttributeError, world0 [1%N] []).
Proof.
  apply (non_string_doc_raises sample_generator _ (JStr "id") (JStr "int"));
    reflexivity.
Defined.

(** X6. A field definition without a [name] or without a [type] ends
    the visit with [KeyError], also when its type would give no value;
    the state is as before. *)
Theorem field_without_key_raises self o r w :
  dict_get "name" o = None ∨ dict_get "type" o = None →
  visit_field self (JObj o) r w = (Raise KeyError, w).
Proof.
  intros [Hn|Ht]; unfold visit_field.
  - apply bind_raise. unfold getitem. by rewrite Hn.
  - destruct (dict_get "name" o) as [nmj|] eqn:Hn.
    + rewrite (bind_ok _ _ _ _ _ (getitem_obj _ _ _ _ Hn)).
      apply bind_raise. unfold getitem. by rewrite Ht.
    + apply bind_raise. unfold getitem. by rewrite Hn.
Qed.

Lemma field_without_key_raises_witness :
  visit_field sample_generator (JObj [("name", JStr "id")]) ∅ (world0 [] [])
  = (Raise KeyError, world0 [] []).
Proof.
  apply (field_without_key_raises sample_generator [("name", JStr "id")]).
  right. reflexivity.
Defined.

(** X7. When [fields] is not a list, one turn of the loop over records
    ends with [TypeError] and writes nothing: a number, a boolean or
    [null] cannot be iterated, and the keys of an object or the
    characters of a string are not field definitions.  Only an empty
    object and an empty string pass, as a schema without fields. *)
Theorem fields_not_a_list_raises self so fields path w :
  dict_get "fields" so = Some fields →
  not_a_field_list fields = true →
  write_record self (JObj so) path w = (Raise TypeError, w).
Proof.
  intros Hf Hnot. unfold write_record.
  rewrite (bind_ok _ _ _ _ _ (getitem_obj _ _ _ w Hf)).
  destruct fields as [| | | |s|l|o]; try done.
  - destruct s as [|c s]; [done|].
    rewrite (bind_ok _ _ w (str_chars (String c s)) w) by done.
    by apply bind_raise.
  - destruct o as [|[k v] o]; [done|].
    rewrite (bind_ok _ _ w (dict_keys ((k, v) :: o)) w) by done.
    by apply bind_raise.
Qed.

Lemma fields_not_a_list_raises_witness :
  write_record sample_generator
    (JObj [("fields", JObj [("id", JStr "int")])]) "out/1_s.jsonl" (world0 [] [])
  = (Raise TypeError, world0 [] []).
Proof.
  apply (fields_not_a_list_raises sample_generator _ (JObj [("id", JStr "int")]));
    reflexivity.
Defined.

(** X8. A nested string type whose [maxLength] is not an integer (a
    text, a float, [null], a list or an object) ends the visit with
    [TypeError]: the text of question marks cannot be built. *)
Theorem non_integer_max_length_raises self o t nmj ml r w :
  dict_get "name" o = Some nmj →
  dict_get "type" o = Some (JObj t) →
  is_Some (doc_of o) →
  dict_get "type" t = Some (JStr "string") →
  dict_get "maxLength" t = Some ml →
  is_int ml = false →
  handle_complex_type self (JObj o) w = (Raise TypeError, w)
  ∧ visit_field self (JObj o) r w = (Raise TypeError, w).
Proof.
  intros Hn Ht [doc Hd] Hinner Hmax Hml.
  assert (handle_complex_type self (JObj o) w = (Raise TypeError, w)) as Hc.
  { unfold handle_complex_type.
    rewrite (bind_ok _ _ _ _ _ (getitem_obj _ _ _ w Ht)). cbn [isinstance_dict].
    rewrite (bind_ok _ _ _ _ _ (getitem_obj _ _ _ w Hinner)).
    cbn [eq_str contains]. rewrite String.eqb_refl.
    rewrite bool_decide_eq_true_2 by (rewrite Hmax; by eexists).
    cbn [andb].
    rewrite (bind_ok _ _ _ _ _ (getitem_obj _ _ _ w Hmax)).
    apply bind_raise. by destruct ml. }
  split; [done|]. read_field Hn Ht Hd. by apply bind_raise.
Qed.

Lemma non_integer_max_length_raises_witness :
  handle_complex_type sample_generator
    (JObj [("name", JStr "code");
           ("type", JObj [("type", JStr "string"); ("maxLength", JStr "8")])])
    (world0 [] [1%N]) = (Raise TypeError, world0 [] [1%N])
  ∧ visit_field sample_generator
      (JObj [("name", JStr "code");
             ("type", JObj [("type", JStr "string"); ("maxLength", JStr "8")])])
      ∅ (world0 [] [1%N]) = (Raise TypeError, world0 [] [1%N]).
Proof.
  apply (non_integer_max_length_raises sample_generator _
           [("type", JStr "string"); ("maxLength", JStr "8")] (JStr "code")
           (JStr "8"));
    [reflexivity|reflexivity|by eexists|reflexivity..].
Defined.



(** ** Further properties of numeric annotations *)

(** [random.uniform(0, q)] for a float [q]: the draw scales [q]. *)
Lemma uniform_float_spec q w :
  ∃ u,
    uniform (PInt 0) (PFloat q) w
    = (Ok (inject_Z 0 + (q - inject_Z 0) * u)%Q,
       {| rand := snd (draw (rand w)); fake_rand := fake_rand w;
          dirs := dirs w; files := files w; stdout := stdout w |})
    ∧ (0 <= u)%Q ∧ (u < 1)%Q.
Proof.
  unfold uniform, py_sub.
  rewrite (bind_ok _ _ w (PFloat (q - inject_Z 0)) w).
  2: { rewrite (bind_ok _ _ w q w) by done.
       by rewrite (bind_ok _ _ _ _ _
                     (to_float_int 0 w (float_fits_small 0 ltac:(lia)))). }
  destruct (random_spec w) as (u & Hu & Hu0 & Hu1).
  rewrite (bind_ok _ _ _ _ _ Hu).
  rewrite (bind_ok _ _ _ (q - inject_Z 0)%Q _) by done.
  rewrite (bind_ok _ _ _ _ _ (to_float_int 0 _ (float_fits_small 0 ltac:(lia)))).
  by exists u.
Qed.

Lemma pow10_ge_1 n : 0 ≤ n → (1 <= pow10 n)%Q.
Proof.
  intros Hn. unfold pow10. rewrite <- (Zle_Qle 1).
  assert (0 < 10 ^ n) by (by apply Z.pow_pos_nonneg). lia.
Qed.

(** X10. When precision and scale are equal the bound
    [10 ** 0 - 1] is 0, and the field always receives the value 0. *)
Theorem double_equal_precision_scale_zero self o nm d precision r w :
  dict_get "name" o = Some (JStr nm) →
  dict_get "type" o = Some (JStr "double") →
  dict_get "doc" o = Some (JStr d) →
  parse_number_format (lower d) = Some (precision, precision) →
  ∃ x w',
    visit_field self (JObj o) r w = (Ok (<[nm := VFloat x]> r), w')
    ∧ (x == 0)%Q.
Proof.
  intros Hn Ht Hdoc Hparse.
  assert (doc_of o = Some (lower d)) as Hd by (unfold doc_of; by rewrite Hdoc).
  destruct (parse_number_format_some _ _ _ Hparse) as (Hstart & Hp & _).
  read_field Hn Ht Hd.
  rewrite (bind_ok _ _ _ _ _ (handle_complex_type_prim self _ _ w Ht eq_refl)).
  simpl. rewrite Hstart, Hparse. rewrite Z.sub_diag.
  rewrite (bind_ok _ _ w (PInt 1) w) by done.
  rewrite (bind_ok _ _ w (PInt 0) w) by done.
  destruct (uniform_int_spec 0 w) as (y & Hu & Hy0 & Hy1); [lia|done|].
  rewrite (bind_ok _ _ _ _ _ Hu).
  destruct (py_round_between 0 0 y precision Hp Hy0 Hy1) as [Hx0 Hx1].
  eexists _, _. split; [reflexivity|]. by apply Qle_antisym.
Qed.

Lemma double_equal_precision_scale_zero_witness :
  ∃ x w',
    visit_field sample_generator
      (JObj [("name", JStr "rate"); ("type", JStr "double");
             ("doc", JStr "NUMBER(2,2)")]) ∅ (world0 [12345%N] [])
    = (Ok (<["rate" := VFloat x]> ∅), w')
    ∧ (x == 0)%Q.
Proof.
  apply (double_equal_precision_scale_zero sample_generator _ "rate"
           "NUMBER(2,2)" 2); reflexivity.
Defined.

(** X11. When the scale exceeds the precision (and the difference fits
    a double) the bound is negative and above -1, and the field receives
    a value between -1 and 0. *)
Theorem double_scale_above_precision_range self o nm d precision scale r w :
  dict_get "name" o = Some (JStr nm) →
  dict_get "type" o = Some (JStr "double") →
  dict_get "doc" o = Some (JStr d) →
  parse_number_format (lower d) = Some (precision, scale) →
  precision < scale →
  float_fits (precision - scale) = true →
  ∃ x w',
    visit_field self (JObj o) r w = (Ok (<[nm := VFloat x]> r), w')
    ∧ (inject_Z (-1) <= x)%Q ∧ (x <= 0)%Q.
Proof.
  intros Hn Ht Hdoc Hparse Hlt Hfit.
  assert (doc_of o = Some (lower d)) as Hd by (unfold doc_of; by rewrite Hdoc).
  destruct (parse_number_format_some _ _ _ Hparse) as (Hstart & Hp & Hs).
  read_field Hn Ht Hd.
  rewrite (bind_ok _ _ _ _ _ (handle_complex_type_prim self _ _ w Ht eq_refl)).
  simpl. rewrite Hstart, Hparse.
  set (e := precision - scale) in *.
  set (q := (/ pow10 (- e))%Q).
  rewrite (bind_ok _ _ w (PFloat q) w).
  2: { unfold py_pow10. destruct (Z.leb_spec 0 e) as [|_]; [lia|].
       by rewrite (bind_ok _ _ _ _ _ (to_float_int _ w Hfit)). }
  rewrite (bind_ok _ _ w (PFloat (q - inject_Z 1)) w).
  2: { unfold py_sub. rewrite (bind_ok _ _ w q w) by done.
       by rewrite (bind_ok _ _ _ _ _
                     (to_float_int 1 w (float_fits_small 1 ltac:(lia)))). }
  destruct (uniform_float_spec (q - inject_Z 1) w) as (u & Hu & Hu0 & Hu1).
  rewrite (bind_ok _ _ _ _ _ Hu).
  assert (0 < q)%Q as Hq0.
  { apply Qinv_lt_0_compat, pow10_pos. lia. }
  assert (q <= 1)%Q as Hq1.
  { unfold q. apply Qle_shift_inv_r; [apply pow10_pos; lia|].
    rewrite Qmult_1_l. apply pow10_ge_1. lia. }
  change (inject_Z 0) with 0%Q in *. change (inject_Z 1) with 1%Q in *.
  destruct (py_round_between (-1) 0 (0 + (q - 1 - 0) * u) scale Hs)
    as [Hx0 Hx1].
  - change (inject_Z (-1)) with (-1)%Q. nra.
  - change (inject_Z 0) with 0%Q. nra.
  - eexists _, _. split; [reflexivity|]. done.
Qed.

Lemma double_scale_above_precision_range_witness :
  ∃ x w',
    visit_field sample_generator
      (JObj [("name", JStr "rate"); ("type", JStr "double");
             ("doc", JStr "NUMBER(1,2)")]) ∅ (world0 [12345%N] [])
    = (Ok (<["rate" := VFloat x]> ∅), w')
    ∧ (inject_Z (-1) <= x)%Q ∧ (x <= 0)%Q.
Proof.
  apply (double_scale_above_precision_range sample_generator _ "rate"
           "NUMBER(1,2)" 1 2); [reflexivity..|lia|reflexivity].
Defined.

(** ** The pattern, in full *)

Lemma str_app_assoc a b c : (a +:+ b) +:+ c = a +:+ (b +:+ c).
Proof.
  induction a as [|x a IH]; [done|].
  change (String x ((a +:+ b) +:+ c) = String x (a +:+ (b +:+ c))).
  by rewrite IH.
Qed.

Lemma str_forallb_app P a b :
  str_forallb P (a +:+ b) = str_forallb P a && str_forallb P b.
Proof.
  induction a as [|x a IH]; [done|].
  change (P x && str_forallb P (a +:+ b)
          = P x && str_forallb P a && str_forallb P b).
  rewrite IH. by rewrite andb_assoc.
Qed.







(** ** Decimal numerals *)

Lemma int_of_digits_from_app acc d c :
  int_of_digits_from acc (d +:+ String c EmptyString)
  = 10 * int_of_digits_from acc d + digit_value c.
Proof.
  revert acc. induction d as [|x d IH]; intros acc; [done|].
  change (int_of_digits_from (10 * acc + digit_value x)
            (d +:+ String c EmptyString)
          = 10 * int_of_digits_from (10 * acc + digit_value x) d
            + digit_value c).
  apply IH.
Qed.

Lemma pretty_N_char_digit k :
  (k < 10)%N →
  is_digit (pretty_N_char k) = true
  ∧ digit_value (pretty_N_char k) = Z.of_N k.
Proof.
  intros Hk.
  assert (k = 0 ∨ k = 1 ∨ k = 2 ∨ k = 3 ∨ k = 4 ∨ k = 5 ∨ k = 6 ∨ k = 7
          ∨ k = 8 ∨ k = 9)%N as Hcases by lia.
  repeat destruct Hcases as [->|Hcases]; try subst k; by split.
Qed.

(** The numeral of a natural number, written in front of [s]: a run of
    digits that denotes the number. *)
Lemma pretty_N_go_numeral x s :
  ∃ d, pretty_N_go x s = d +:+ s
       ∧ str_forallb is_digit d = true
       ∧ int_of_digits d = Z.of_N x
       ∧ ((0 < x)%N → d ≠ EmptyString).
Proof.
  revert s. induction x as [x IH] using (well_founded_induction N.lt_wf_0).
  intros s. destruct (N.eq_dec x 0%N) as [->|Hx].
  - exists EmptyString. rewrite pretty_N_go_0. repeat split; try done; lia.
  - rewrite pretty_N_go_step by lia.
    destruct (IH (x `div` 10)%N) with (s := String (pretty_N_char (x `mod` 10)) s)
      as (d & Hd & Hdig & Hval & _).
    { apply N.div_lt; lia. }
    destruct (pretty_N_char_digit (x `mod` 10)) as [Hc Hv].
    { apply N.mod_upper_bound. lia. }
    exists (d +:+ String (pretty_N_char (x `mod` 10)) EmptyString).
    split; [by rewrite Hd, str_app_assoc|]. split; [|split].
    + rewrite str_forallb_app, Hdig. cbn [str_forallb]. by rewrite Hc.
    + unfold int_of_digits in *. rewrite int_of_digits_from_app, Hval, Hv.
      pose proof (N.div_mod x 10 ltac:(lia)). lia.
    + intros _. by destruct d.
Qed.

Lemma str_app_nil_r s : s +:+ EmptyString = s.
Proof.
  induction s as [|c s IH]; [done|].
  change (String c (s +:+ EmptyString) = String c s). by rewrite IH.
Qed.

(** The numeral of a non-negative integer is a non-empty run of digits
    that denotes it. *)
Lemma pretty_nonneg_numeral n :
  0 ≤ n →
  pretty n ≠ EmptyString
  ∧ str_forallb is_digit (pretty n) = true
  ∧ int_of_digits (pretty n) = n.
Proof.
  intros Hn. destruct n as [|p|p]; [done| |lia].
  unfold pretty, pretty_Z, pretty, pretty_positive, pretty, pretty_N.
  destruct (decide (N.pos p = 0%N)); [done|].
  destruct (pretty_N_go_numeral (N.pos p) EmptyString)
    as (d & Hd & Hdig & Hval & Hne).
  rewrite str_app_nil_r in Hd. rewrite Hd.
  split; [apply Hne; lia|]. split; [done|]. rewrite Hval. lia.
Qed.



(** ** The name of the output file *)

Lemma str_length_app a b :
  String.length (a +:+ b) = (String.length a + String.length b)%nat.
Proof.
  induction a as [|x a IH]; [done|].
  change (S (String.length (a +:+ b))
          = S (String.length a + String.length b)).
  by rewrite IH.
Qed.

Lemma str_app_inv_head a b c : a +:+ b = a +:+ c → b = c.
Proof.
  induction a as [|x a IH]; [done|]. intros H.
  change (String x (a +:+ b) = String x (a +:+ c)) in H.
  apply IH. congruence.
Qed.

Lemma str_app_inv_tail a b c : a +:+ c = b +:+ c → a = b.
Proof.
  revert b. induction a as [|x a IH]; intros b H.
  - destruct b as [|y b]; [done|].
    apply (f_equal String.length) in H. rewrite !str_length_app in H.
    simpl in H. lia.
  - destruct b as [|y b].
    + apply (f_equal String.length) in H. rewrite !str_length_app in H.
      simpl in H. lia.
    + change (String x (a +:+ c) = String y (b +:+ c)) in H.
      simplify_eq. by rewrite (IH b).
Qed.

(** Two texts cut at the first occurrence of a character agree part by
    part. *)
Lemma str_split_at c a1 a2 b1 b2 :
  str_mem c a1 = false → str_mem c a2 = false →
  a1 +:+ String c b1 = a2 +:+ String c b2 → a1 = a2 ∧ b1 = b2.
Proof.
  revert a2. induction a1 as [|x a1 IH]; intros a2 H1 H2 H.
  - destruct a2 as [|y a2].
    + change (String c b1 = String c b2) in H. by simplify_eq.
    + change (String c b1 = String y (a2 +:+ String c b2)) in H.
      simplify_eq. cbn [str_mem] in H2. by rewrite Ascii.eqb_refl in H2.
  - cbn [str_mem] in H1. apply orb_false_iff in H1 as [Hx H1].
    destruct a2 as [|y a2].
    + change (String x (a1 +:+ String c b1) = String c b2) in H.
      simplify_eq. by rewrite Ascii.eqb_refl in Hx.
    + cbn [str_mem] in H2. apply orb_false_iff in H2 as [_ H2].
      change (String x (a1 +:+ String c b1)
              = String y (a2 +:+ String c b2)) in H.
      simplify_eq. destruct (IH a2 H1 H2) as [-> ->]; done.
Qed.

Lemma digits_without c d :
  is_digit c = false → str_forallb is_digit d = true → str_mem c d = false.
Proof.
  intros Hc. induction d as [|x d IH]; [done|]. cbn [str_forallb str_mem].
  intros [Hx Hd]%andb_true_iff. rewrite (IH Hd), orb_false_r.
  destruct (Ascii.eqb_spec c x) as [->|]; [congruence|done].
Qed.

(** The numeral of an integer holds no underscore. *)
Lemma pretty_without_underscore (n : Z) : str_mem "_" (pretty n) = false.
Proof.
  destruct n as [|p|p]; [done| |].
  - destruct (pretty_nonneg_numeral (Z.pos p)) as (_ & Hd & _); [lia|].
    by apply digits_without.
  - destruct (pretty_nonneg_numeral (Z.pos p)) as (_ & Hd & _); [lia|].
    change (pretty (Z.neg p)) with (String "-" (pretty (Z.pos p))).
    cbn [str_mem]. by rewrite (digits_without "_" _ eq_refl Hd).
Qed.

(** X14. In one folder the name of the output file determines the
    record count and the schema name: runs that differ in either never
    write to the same file. *)
Theorem output_path_injective n1 n2 folder name1 name2 :
  output_path n1 folder name1 = output_path n2 folder name2 →
  n1 = n2 ∧ name1 = name2.
Proof.
  unfold output_path, path_join. intros H.
  assert (pretty n1 +:+ "_" +:+ name1 +:+ ".jsonl"
          = pretty n2 +:+ "_" +:+ name2 +:+ ".jsonl") as Hfile.
  { destruct (String.eqb folder ""); [done|].
    destruct (String.eqb _ "/").
    - by apply str_app_inv_head in H.
    - apply str_app_inv_head in H. by apply (str_app_inv_head "/") in H. }
  change ("_" +:+ name1 +:+ ".jsonl") with (String "_" (name1 +:+ ".jsonl"))
    in Hfile.
  change ("_" +:+ name2 +:+ ".jsonl") with (String "_" (name2 +:+ ".jsonl"))
    in Hfile.
  apply str_split_at in Hfile as [Hn Hname];
    [|apply pretty_without_underscore..].
  split.
  - by apply (inj pretty).
  - by apply str_app_inv_tail in Hname.
Qed.

Lemma output_path_injective_witness :
  3 = 3 ∧ "users" = "users".
Proof.
  apply (output_path_injective 3 3 "target" "users" "users"). reflexivity.
Defined.

(** ** What a run touches *)

Lemma write_record_touches self schema path w o w' :
  write_record self schema path w = (o, w') →
  dirs w' = dirs w ∧ stdout w' = stdout w
  ∧ ∀ p, p ≠ path → files w' !! p = files w !! p.
Proof.
  unfold write_record. intros H. unfold bind in H.
  destruct (getitem schema "fields" w) as [[fields|?] w1] eqn:Hg.
  2: { destruct (frames_getitem _ _ _ _ _ Hg) as (H1 & H2 & H3).
       simplify_eq. by rewrite H1, H2, H3. }
  destruct (frames_getitem _ _ _ _ _ Hg) as (H1 & H2 & H3).
  destruct (iter fields w1) as [[l|?] w2] eqn:Hi.
  2: { destruct (frames_iter _ _ _ _ Hi) as (H4 & H5 & H6).
       simplify_eq. by rewrite H4, H5, H6, H1, H2, H3. }
  destruct (frames_iter _ _ _ _ Hi) as (H4 & H5 & H6).
  destruct (visit_fields self l ∅ w2) as [[r|?] w3] eqn:Hv.
  - destruct (frames_visit_fields _ _ _ _ _ _ Hv) as (H7 & H8 & H9).
    unfold write_line in H. simplify_eq. cbn [dirs files stdout].
    split; [congruence|]. split; [congruence|].
    intros p Hp. rewrite lookup_insert_ne by done. congruence.
  - destruct (frames_visit_fields _ _ _ _ _ _ Hv) as (H7 & H8 & H9).
    simplify_eq. split; [congruence|]. split; [congruence|].
    intros p _. congruence.
Qed.

Lemma write_records_touches self schema path n w o w' :
  write_records self schema path n w = (o, w') →
  dirs w' = dirs w ∧ stdout w' = stdout w
  ∧ ∀ p, p ≠ path → files w' !! p = files w !! p.
Proof.
  revert w. induction n as [|n IH]; intros w H; simpl in H.
  - unfold ret in H. by simplify_eq.
  - unfold bind in H.
    destruct (write_record self schema path w) as [[[]|?] w1] eqn:Hw.
    + destruct (write_record_touches _ _ _ _ _ _ Hw) as (H1 & H2 & H3).
      destruct (IH _ H) as (H4 & H5 & H6).
      split; [congruence|]. split; [congruence|].
      intros p Hp. rewrite H6, H3 by done. done.
    + simplify_eq. by eapply write_record_touches.
Qed.

(** X15. A run touches nothing but its output: the output folder is
    created, no file other than the output file changes, and one line,
    naming the output file, is printed when the run succeeds and none
    when it fails. *)
Theorem generate_touches_only_output self schema n folder sname w o w' :
  generate_dummy_data self schema n folder sname w = (o, w') →
  dirs w' = {[folder]} ∪ dirs w
  ∧ (∀ p, p ≠ output_path n folder sname → files w' !! p = files w !! p)
  ∧ stdout w'
    = (stdout w
       ++ match o with
          | Ok _ => ["Dataset saved to " +:+ output_path n folder sname]
          | Raise _ => []
          end)%list.
Proof.
  intros H. unfold generate_dummy_data in H.
  set (path := output_path n folder sname) in *.
  unfold bind at 1 in H. unfold makedirs at 1 in H.
  unfold bind at 1 in H. unfold open_w at 1 in H.
  cbn [rand fake_rand dirs files stdout] in H.
  fold (after_open path folder w) in H.
  unfold bind in H.
  destruct (write_records self schema path (Z.to_nat n) (after_open path folder w))
    as [[[]|?] w1] eqn:Hw;
    destruct (write_records_touches _ _ _ _ _ _ _ Hw) as (H1 & H2 & H3).
  - unfold print in H. simplify_eq. cbn [dirs files stdout].
    rewrite H1, H2. split; [done|]. split; [|done].
    intros p Hp. rewrite H3 by done. unfold after_open. simpl.
    by rewrite lookup_insert_ne.
  - simplify_eq. rewrite H1, H2. split; [done|]. split.
    + intros p Hp. rewrite H3 by done. unfold after_open. simpl.
      by rewrite lookup_insert_ne.
    + unfold after_open. simpl. by rewrite app_nil_r.
Qed.

Lemma generate_touches_only_output_witness :
  dirs (snd (generate_dummy_data sample_generator (JObj []) 1 "out" "s"
               (world0 [] [])))
  = {[ "out" ]} ∪ dirs (world0 [] [])
  ∧ (∀ p, p ≠ output_path 1 "out" "s" →
       files (snd (generate_dummy_data sample_generator (JObj []) 1 "out" "s"
                     (world0 [] []))) !! p
       = files (world0 [] []) !! p)
  ∧ stdout (snd (generate_dummy_data sample_generator (JObj []) 1 "out" "s"
                   (world0 [] [])))
    = (stdout (world0 [] []) ++ [])%list.
Proof.
  apply (generate_touches_only_output sample_generator (JObj []) 1 "out" "s"
           (world0 [] []) (Raise KeyError)).
  reflexivity.
Defined.

(** X16. A run that succeeds leaves exactly as many lines in the output
    file as records were asked for (none for a negative count), for
    every schema and whatever the file held before. *)
Theorem success_writes_n_lines self schema n folder sname w w' :
  generate_dummy_data self schema n folder sname w = (Ok tt, w') →
  ∃ lines,
    files w' !! output_path n folder sname = Some lines
    ∧ length lines = Z.to_nat n.
Proof.
  intros H. unfold generate_dummy_data in H.
  set (path := output_path n folder sname) in *.
  unfold bind at 1 in H. unfold makedirs at 1 in H.
  unfold bind at 1 in H. unfold open_w at 1 in H.
  cbn [rand fake_rand dirs files stdout] in H.
  fold (after_open path folder w) in H.
  apply bind_ok_inv in H as ([] & w1 & Hw & Hp).
  unfold print in Hp. simplify_eq. cbn [files].
  assert (∀ k w0 w1 lines,
            write_records self schema path k w0 = (Ok tt, w1) →
            files w0 !! path = Some lines →
            ∃ added, files w1 !! path = Some (lines ++ added)%list
                     ∧ length added = k) as Hcount.
  { clear. induction k as [|k IH]; intros w0 w1 lines H Hl; simpl in H.
    - unfold ret in H. simplify_eq. exists []. by rewrite app_nil_r.
    - apply bind_ok_inv in H as ([] & w2 & Hrec & Hrest).
      unfold write_record in Hrec.
      apply bind_ok_inv in Hrec as (fields & w3 & Hg & Hrec).
      destruct (frames_getitem _ _ _ _ _ Hg) as (_ & Hf1 & _).
      apply bind_ok_inv in Hrec as (l & w4 & Hi & Hrec).
      destruct (frames_iter _ _ _ _ Hi) as (_ & Hf2 & _).
      apply bind_ok_inv in Hrec as (r & w5 & Hv & Hwl).
      destruct (frames_visit_fields _ _ _ _ _ _ Hv) as (_ & Hf3 & _).
      unfold write_line in Hwl. simplify_eq.
      destruct (IH _ _ (lines ++ [r])%list Hrest) as (added & Ha & Hlen).
      { cbn [files]. rewrite lookup_insert_eq.
        rewrite Hf3, Hf2, Hf1, Hl. done. }
      exists (r :: added). split; [by rewrite <- app_assoc in Ha|].
      simpl. by rewrite Hlen. }
  destruct (Hcount _ _ _ [] Hw) as (lines & Hl & Hlen).
  { unfold after_open. simpl. apply lookup_insert_eq. }
  by exists lines.
Qed.

Lemma success_writes_n_lines_witness :
  ∃ lines,
    files (snd (generate_dummy_data sample_generator
                  (JObj [("fields",
                          JArr [JObj [("name", JStr "id");
                                      ("type", JStr "int")]])])
                  2 "out" "s" (world0 [] [])))
      !! output_path 2 "out" "s" = Some lines
    ∧ length lines = Z.to_nat 2.
Proof.
  apply (success_writes_n_lines sample_generator
           (JObj [("fields",
                   JArr [JObj [("name", JStr "id"); ("type", JStr "int")]])])
           2 "out" "s" (world0 [] [])).
  reflexivity.
Defined.

(** ** Failures are decided by the schema *)

Lemma setitem_static nmj :
  ∃ oe, ∀ r v w, error_of (setitem r nmj v w) = oe.
Proof.
  destruct nmj;
    first [by exists None | by exists (Some TypeError)
          | by exists (Some NonStringName)].
Qed.

Lemma number_value_raises {B} precision scale (k : Q → M B) w :
  number_fits precision scale = false →
  ∃ w',
    (let* p := py_pow10 (precision - scale) in
     let* max_value := py_sub p (PInt 1) in
     let* x := uniform (PInt 0) max_value in
     k x) w = (Raise OverflowError, w').
Proof.
  unfold number_fits, py_pow10. intros Hfit.
  destruct (Z.leb_spec 0 (precision - scale)) as [He|He].
  - rewrite (bind_ok _ _ w (PInt (10 ^ (precision - scale))) w) by done.
    rewrite (bind_ok _ _ w (PInt (10 ^ (precision - scale) - 1)) w) by done.
    destruct (random_spec w) as (u & Hu & _).
    eexists. apply bind_raise. unfold uniform, py_sub.
    rewrite (bind_ok _ _ w (PInt (10 ^ (precision - scale) - 1 - 0)) w) by done.
    rewrite (bind_ok _ _ _ _ _ Hu). apply bind_raise.
    unfold to_float. rewrite Z.sub_0_r, Hfit. reflexivity.
  - exists w. apply bind_raise. apply bind_raise.
    unfold to_float. by rewrite Hfit.
Qed.

(** A nested string type with a [maxLength]: a text when the length is
    an integer, [TypeError] when it is not. *)
Lemma handle_complex_type_string self o ot inner ml w :
  dict_get "type" o = Some (JObj ot) →
  dict_get "type" ot = Some inner →
  eq_str inner "string" && contains (JObj ot) "maxLength" = true →
  dict_get "maxLength" ot = Some ml →
  if is_int ml
  then ∃ s w', handle_complex_type self (JObj o) w = (Ok (Some s), w')
  else handle_complex_type self (JObj o) w = (Raise TypeError, w).
Proof.
  intros Ht Hinner Hshape Hml. unfold handle_complex_type.
  rewrite (bind_ok _ _ _ _ _ (getitem_obj _ _ _ w Ht)). cbn [isinstance_dict].
  rewrite (bind_ok _ _ _ _ _ (getitem_obj _ _ _ w Hinner)). rewrite Hshape.
  rewrite (bind_ok _ _ _ _ _ (getitem_obj _ _ _ w Hml)).
  destruct ml as [|b|n| | | |]; cbn [is_int]; try (by apply bind_raise).
  - destruct (lexify_question_marks (if b then 1%nat else 0%nat) w)
      as (s & w' & Hs & _).
    unfold str_mul. rewrite (bind_ok _ _ w _ w) by done.
    rewrite (bind_ok _ _ _ _ _ Hs). by eexists _, _.
  - destruct (lexify_question_marks (Z.to_nat n) w) as (s & w' & Hs & _).
    unfold str_mul. rewrite (bind_ok _ _ w _ w) by done.
    rewrite (bind_ok _ _ _ _ _ Hs). by eexists _, _.
Qed.

(** Whether the visit of a field definition fails, and with which
    exception, is fixed by the definition: it does not depend on the
    Faker instance, on the record, on the random draws or on the files. *)
Lemma visit_field_error_static field :
  ∃ oe, ∀ self r w, error_of (visit_field self field r w) = oe.
Proof.
  destruct field as [| | | | | |o];
    try (exists (Some TypeError); intros self r w; reflexivity).
  destruct (dict_get "name" o) as [nmj|] eqn:Hn.
  2: { exists (Some KeyError). intros self r w. unfold visit_field.
       erewrite bind_raise; [reflexivity|]. unfold getitem. by rewrite Hn. }
  destruct (dict_get "type" o) as [t|] eqn:Ht.
  2: { exists (Some KeyError). intros self r w. unfold visit_field.
       rewrite (bind_ok _ _ _ _ _ (getitem_obj _ _ _ _ Hn)).
       erewrite bind_raise; [reflexivity|]. unfold getitem. by rewrite Ht. }
  destruct (doc_of o) as [doc|] eqn:Hd.
  2: { exists (Some AttributeError). intros self r w. unfold visit_field.
       rewrite (bind_ok _ _ _ _ _ (getitem_obj _ _ _ _ Hn)).
       rewrite (bind_ok _ _ _ _ _ (getitem_obj _ _ _ _ Ht)).
       unfold doc_of in Hd. unfold bind, get, lower_method.
       destruct (dict_get "doc" o) as [[]|]; done. }
  destruct (setitem_static nmj) as [oek Hk].
  destruct (isinstance_dict t) eqn:Hdict.
  - destruct t as [| | | | | |ot]; try discriminate.
    destruct (dict_get "type" ot) as [inner|] eqn:Hinner.
    2: { exists (Some KeyError). intros self r w. read_field Hn Ht Hd.
         erewrite bind_raise; [reflexivity|].
         unfold handle_complex_type.
         rewrite (bind_ok _ _ _ _ _ (getitem_obj _ _ _ w Ht)).
         cbn [isinstance_dict]. apply bind_raise.
         unfold getitem. by rewrite Hinner. }
    destruct (eq_str inner "string" && contains (JObj ot) "maxLength")
      eqn:Hshape.
    2: { exists None. intros self r w.
         destruct (nested_other_shape_omitted self o ot nmj inner r w Hn Ht
                     ltac:(by eexists) Hinner Hshape) as [_ ->].
         reflexivity. }
    destruct (dict_get "maxLength" ot) as [ml|] eqn:Hml.
    2: { cbn [contains] in Hshape. rewrite Hml in Hshape.
         rewrite bool_decide_eq_false_2 in Hshape by (by intros [? ?]).
         by rewrite andb_false_r in Hshape. }
    destruct (is_int ml) eqn:Hint.
    + exists oek. intros self r w.
      pose proof (handle_complex_type_string self o ot inner ml w
                    Ht Hinner Hshape Hml) as Hc.
      rewrite Hint in Hc. destruct Hc as (s & w' & Hc).
      read_field Hn Ht Hd. rewrite (bind_ok _ _ _ _ _ Hc). apply Hk.
    + exists (Some TypeError). intros self r w.
      pose proof (handle_complex_type_string self o ot inner ml w
                    Ht Hinner Hshape Hml) as Hc.
      rewrite Hint in Hc.
      read_field Hn Ht Hd. by rewrite (bind_raise _ _ _ _ _ Hc).
  - pose proof (λ self w, handle_complex_type_prim self o t w Ht Hdict) as Hc.
    destruct (eq_str t "int") eqn:Hint.
    { exists oek. intros self r w. read_field Hn Ht Hd.
      rewrite (bind_ok _ _ _ _ _ (Hc self w)). rewrite Hint.
      destruct (randint_spec 0 999999 w) as (n & Hr & _); [lia|].
      rewrite (bind_ok _ _ _ _ _ Hr). apply Hk. }
    destruct (eq_str t "string") eqn:Hstr.
    { exists oek. intros self r w. read_field Hn Ht Hd.
      rewrite (bind_ok _ _ _ _ _ (Hc self w)). rewrite Hint, Hstr.
      repeat match goal with
             | |- context [if ?b then _ else _] => destruct b
             end;
        match goal with
        | |- context [Faker.call ?f] =>
            destruct (call_total f w) as (a & w2 & Ha);
            rewrite (bind_ok _ _ _ _ _ Ha); apply Hk
        end. }
    destruct (eq_str t "double") eqn:Hdbl.
    2: { exists None. intros self r w. read_field Hn Ht Hd.
         rewrite (bind_ok _ _ _ _ _ (Hc self w)). by rewrite Hint, Hstr, Hdbl. }
    destruct (startswith doc "number(") eqn:Hstart.
    2: { exists oek. intros self r w. read_field Hn Ht Hd.
         rewrite (bind_ok _ _ _ _ _ (Hc self w)). rewrite Hint, Hstr, Hdbl, Hstart.
         destruct (uniform_int_spec 99999999 w) as (y & Hy & _);
           [lia|by vm_compute|].
         rewrite (bind_ok _ _ _ _ _ Hy). apply Hk. }
    destruct (parse_number_format doc) as [[precision scale]|] eqn:Hparse.
    2: { exists None. intros self r w. read_field Hn Ht Hd.
         rewrite (bind_ok _ _ _ _ _ (Hc self w)).
         by rewrite Hint, Hstr, Hdbl, Hstart, Hparse. }
    destruct (number_fits precision scale) eqn:Hfit.
    + exists oek. intros self r w. read_field Hn Ht Hd.
      rewrite (bind_ok _ _ _ _ _ (Hc self w)).
      rewrite Hint, Hstr, Hdbl, Hstart, Hparse.
      destruct (number_value_total precision scale
                  (λ x, setitem r nmj (VFloat (py_round x scale))) w Hfit)
        as (x & w2 & Hx).
      rewrite Hx. apply Hk.
    + exists (Some OverflowError). intros self r w. read_field Hn Ht Hd.
      rewrite (bind_ok _ _ _ _ _ (Hc self w)).
      rewrite Hint, Hstr, Hdbl, Hstart, Hparse.
      destruct (number_value_raises precision scale
                  (λ x, setitem r nmj (VFloat (py_round x scale))) w Hfit)
        as (w2 & Hx).
      by rewrite Hx.
Qed.

Lemma error_of_ok {A} (x : outcome A * World) :
  error_of x = None → ∃ a w', x = (Ok a, w').
Proof. destruct x as [[a|e] w']; [by eexists _, _|done]. Qed.

Lemma error_of_raise {A} (x : outcome A * World) e :
  error_of x = Some e → ∃ w', x = (Raise e, w').
Proof.
  destruct x as [[a|e'] w']; [done|]. unfold error_of. simpl.
  intros [= ->]. by eexists.
Qed.

Lemma visit_fields_error_static fields :
  ∃ oe, ∀ self r w, error_of (visit_fields self fields r w) = oe.
Proof.
  induction fields as [|f fields [oe2 IH]].
  - by exists None.
  - destruct (visit_field_error_static f) as [oe1 H1].
    exists (match oe1 with Some e => Some e | None => oe2 end).
    intros self r w. cbn [visit_fields]. unfold bind.
    specialize (H1 self r w).
    destruct (visit_field self f r w) as [[r1|e] w1];
      unfold error_of in H1; simpl in H1; subst oe1; [apply IH|done].
Qed.

Lemma write_record_error_static schema :
  ∃ oe, ∀ self path w, error_of (write_record self schema path w) = oe.
Proof.
  destruct schema as [| | | | | |so];
    try (exists (Some TypeError); intros self path w; reflexivity).
  destruct (dict_get "fields" so) as [fields|] eqn:Hf.
  2: { exists (Some KeyError). intros self path w. unfold write_record.
       erewrite bind_raise; [reflexivity|]. unfold getitem. by rewrite Hf. }
  destruct (visit_fields_error_static (items_of fields)) as [oe H].
  destruct (iter fields (world0 [] [])) as [[l0|e0] w0] eqn:Hi.
  - assert (∀ w, iter fields w = (Ok (items_of fields), w)) as Hiter
      by (by destruct fields).
    exists oe. intros self path w. unfold write_record.
    rewrite (bind_ok _ _ _ _ _ (getitem_obj _ _ _ w Hf)).
    rewrite (bind_ok _ _ _ _ _ (Hiter w)).
    specialize (H self ∅ w). unfold bind.
    by destruct (visit_fields self (items_of fields) ∅ w) as [[r|e] w1].
  - assert (∀ w, iter fields w = (Raise TypeError, w)) as Hiter
      by (by destruct fields).
    exists (Some TypeError). intros self path w. unfold write_record.
    rewrite (bind_ok _ _ _ _ _ (getitem_obj _ _ _ w Hf)).
    by rewrite (bind_raise _ _ _ _ _ (Hiter w)).
Qed.

Lemma write_records_error_static schema :
  ∃ oe, ∀ self path n w,
    error_of (write_records self schema path n w)
    = match n with O => None | S _ => oe end.
Proof.
  destruct (write_record_error_static schema) as [oe H]. exists oe.
  intros self path n. induction n as [|n IH]; intros w; [done|].
  cbn [write_records]. unfold bind. specialize (H self path w).
  destruct (write_record self schema path w) as [[[]|e] w1];
    unfold error_of in H; simpl in H; subst oe; [|done].
  rewrite IH. by destruct n.
Qed.

Lemma write_record_raise_files self schema path w e w' :
  write_record self schema path w = (Raise e, w') → files w' = files w.
Proof.
  unfold write_record. intros H. unfold bind in H.
  destruct (getitem schema "fields" w) as [[fields|?] w1] eqn:Hg.
  2: { destruct (frames_getitem _ _ _ _ _ Hg) as (_ & H2 & _). by simplify_eq. }
  destruct (frames_getitem _ _ _ _ _ Hg) as (_ & H2 & _).
  destruct (iter fields w1) as [[l|?] w2] eqn:Hi.
  2: { destruct (frames_iter _ _ _ _ Hi) as (_ & H5 & _).
       simplify_eq. congruence. }
  destruct (frames_iter _ _ _ _ Hi) as (_ & H5 & _).
  destruct (visit_fields self l ∅ w2) as [[r|?] w3] eqn:Hv.
  - unfold write_line in H. by simplify_eq.
  - destruct (frames_visit_fields _ _ _ _ _ _ Hv) as (_ & H8 & _).
    simplify_eq. congruence.
Qed.

(** X17. A run that fails does so on its first record: the output
    file is left empty, however many records were asked for. *)
Theorem failed_run_leaves_empty_file self schema n folder sname w e w' :
  generate_dummy_data self schema n folder sname w = (Raise e, w') →
  files w' !! output_path n folder sname = Some [].
Proof.
  intros H. unfold generate_dummy_data in H.
  set (path := output_path n folder sname) in *.
  unfold bind at 1 in H. unfold makedirs at 1 in H.
  unfold bind at 1 in H. unfold open_w at 1 in H.
  cbn [rand fake_rand dirs files stdout] in H.
  fold (after_open path folder w) in H.
  unfold bind in H.
  destruct (write_records self schema path (Z.to_nat n) (after_open path folder w))
    as [[[]|e1] w1] eqn:Hw; [by unfold print in H|]. simplify_eq.
  destruct (write_records_error_static schema) as [oe Hoe].
  destruct (Z.to_nat n) as [|m]; [by unfold write_records, ret in Hw|].
  cbn [write_records] in Hw. unfold bind in Hw.
  destruct (write_record self schema path (after_open path folder w))
    as [[[]|e2] w2] eqn:Hrec.
  - pose proof (Hoe self path 1%nat (after_open path folder w)) as H1.
    cbn [write_records] in H1. unfold bind in H1. rewrite Hrec in H1.
    pose proof (Hoe self path m w2) as H2. rewrite Hw in H2.
    unfold error_of in H1, H2. simpl in H1, H2. subst oe. by destruct m.
  - simplify_eq. rewrite (write_record_raise_files _ _ _ _ _ _ Hrec).
    unfold after_open. simpl. apply lookup_insert_eq.
Qed.

Lemma failed_run_leaves_empty_file_witness :
  files (snd (generate_dummy_data sample_generator
                (JObj [("fields",
                        JArr [JObj [("name", JStr "id"); ("type", JStr "int")];
                              JObj [("name", JStr "x")]])])
                5 "out" "s" (world0 [] [])))
    !! output_path 5 "out" "s" = Some [].
Proof.
  apply (failed_run_leaves_empty_file sample_generator
           (JObj [("fields",
                   JArr [JObj [("name", JStr "id"); ("type", JStr "int")];
                         JObj [("name", JStr "x")]])])
           5 "out" "s" (world0 [] []) KeyError).
  reflexivity.
Defined.

(** X18. Whether a run that asks for at least one record fails, and
    with which exception, is decided by the schema alone: not by the
    random draws, the Faker instance, the record count, the output
    folder or the files already there.  A run for one record therefore
    tells whether any run will succeed. *)
Theorem failure_decided_by_schema schema self1 n1 folder1 sname1 w1
    self2 n2 folder2 sname2 w2 :
  0 < n1 → 0 < n2 →
  error_of (generate_dummy_data self1 schema n1 folder1 sname1 w1)
  = error_of (generate_dummy_data self2 schema n2 folder2 sname2 w2).
Proof.
  intros Hn1 Hn2.
  destruct (write_records_error_static schema) as [oe Hoe].
  assert (∀ self n folder sname w, 0 < n →
            error_of (generate_dummy_data self schema n folder sname w) = oe)
    as Hgen.
  { intros self n folder sname w Hn. unfold generate_dummy_data.
    unfold bind at 1. unfold makedirs at 1.
    unfold bind at 1. unfold open_w at 1.
    cbn [rand fake_rand dirs files stdout].
    pose proof (Hoe self (output_path n folder sname) (Z.to_nat n)
                  (after_open (output_path n folder sname) folder w)) as H.
    destruct (Z.to_nat n) as [|m] eqn:Hm; [lia|].
    unfold bind. fold (after_open (output_path n folder sname) folder w).
    destruct (write_records self schema _ (S m) _) as [[[]|e] w'];
      unfold error_of in H; simpl in H; by subst oe. }
  by rewrite !Hgen.
Qed.

Lemma failure_decided_by_schema_witness :
  error_of (generate_dummy_data sample_generator
              (JObj [("fields", JArr [JObj [("name", JStr "id")]])])
              1 "a" "s" (world0 [] []))
  = error_of (generate_dummy_data sample_generator
                (JObj [("fields", JArr [JObj [("name", JStr "id")]])])
                7 "b" "t" (world0 [3%N] [4%N])).
Proof.
  apply (failure_decided_by_schema
           (JObj [("fields", JArr [JObj [("name", JStr "id")]])])); lia.
Defined.

(** ** The keys of a record, exactly *)







(** ** Schemas without field definitions *)

Lemma write_records_no_fields self so fields path n w lines :
  dict_get "fields" so = Some fields →
  not_a_field_list fields = false →
  items_of fields = [] →
  files w !! path = Some lines →
  ∃ w',
    write_records self (JObj so) path n w = (Ok tt, w')
    ∧ files w' !! path = Some (lines ++ replicate n (∅ : record))%list
    ∧ rand w' = rand w ∧ fake_rand w' = fake_rand w
    ∧ dirs w' = dirs w ∧ stdout w' = stdout w.
Proof.
  intros Hf Hlist Hitems. revert w lines.
  induction n as [|n IH]; intros w lines Hl.
  - exists w. cbn [write_records replicate]. by rewrite app_nil_r.
  - assert (iter fields w = (Ok [], w)) as Hi.
    { destruct fields as [| | | |s|l|o]; try done;
        cbn [items_of] in Hitems; cbn [iter]; by rewrite Hitems. }
    assert (write_record self (JObj so) path w = write_line path ∅ w) as Hrec.
    { unfold write_record.
      rewrite (bind_ok _ _ _ _ _ (getitem_obj _ _ _ w Hf)).
      rewrite (bind_ok _ _ _ _ _ Hi). cbn [visit_fields].
      by rewrite (bind_ok _ _ w (∅ : record) w). }
    cbn [write_records]. unfold bind. rewrite Hrec. unfold write_line at 1.
    match goal with
    | |- context [write_records _ _ _ _ ?w1] =>
        destruct (IH w1 (lines ++ [∅])%list) as (w' & Hrun & Hfile & Hrest)
    end.
    { cbn [files]. rewrite lookup_insert_eq, Hl. done. }
    exists w'. split; [done|]. split; [|done].
    rewrite Hfile, <- app_assoc. done.
Qed.

(** X20. A schema whose [fields] is an empty list (or an empty object
    or an empty string) is not an error: the run succeeds, every record
    is empty, there is one per record asked for, and no random draw is
    used. *)
Theorem no_fields_empty_records self so fields n folder sname w :
  dict_get "fields" so = Some fields →
  not_a_field_list fields = false →
  items_of fields = [] →
  ∃ w',
    generate_dummy_data self (JObj so) n folder sname w = (Ok tt, w')
    ∧ files w' !! output_path n folder sname
      = Some (replicate (Z.to_nat n) (∅ : record))
    ∧ rand w' = rand w ∧ fake_rand w' = fake_rand w.
Proof.
  intros Hf Hlist Hitems. unfold generate_dummy_data.
  set (path := output_path n folder sname).
  unfold bind at 1. unfold makedirs at 1.
  unfold bind at 1. unfold open_w at 1. cbn [rand fake_rand dirs files stdout].
  fold (after_open path folder w).
  destruct (write_records_no_fields self so fields path (Z.to_nat n)
              (after_open path folder w) [] Hf Hlist Hitems)
    as (w1 & Hrun & Hfile & Hr & Hfr & _).
  { unfold after_open. simpl. apply lookup_insert_eq. }
  rewrite (bind_ok _ _ _ _ _ Hrun).
  eexists. split; [reflexivity|]. by cbn [files rand fake_rand].
Qed.

Lemma no_fields_empty_records_witness :
  ∃ w',
    generate_dummy_data sample_generator (JObj [("fields", JArr [])]) 2
      "out" "s" (world0 [5%N] [6%N]) = (Ok tt, w')
    ∧ files w' !! output_path 2 "out" "s"
      = Some (replicate (Z.to_nat 2) (∅ : record))
    ∧ rand w' = rand (world0 [5%N] [6%N])
    ∧ fake_rand w' = fake_rand (world0 [5%N] [6%N]).
Proof.
  apply (no_fields_empty_records sample_generator [("fields", JArr [])]
           (JArr [])); reflexivity.
Defined.

(** ** When a complex value is produced *)

(** X21. [handle_complex_type] returns a text only for a nested type
    {type: "string", maxLength: m} with an integer [m]; the text consists
    of letters of [string.ascii_letters] and its length is [m], or 0 when
    [m] is negative.  Every other field definition gives [None] or an
    exception. *)
Theorem handle_complex_type_some self field w s w' :
  handle_complex_type self field w = (Ok (Some s), w') →
  str_forallb (λ c, str_mem c ascii_letters) s = true
  ∧ ∃ o t ml,
      field = JObj o
      ∧ dict_get "type" o = Some (JObj t)
      ∧ dict_get "type" t = Some (JStr "string")
      ∧ dict_get "maxLength" t = Some ml
      ∧ is_int ml = true
      ∧ String.length s
        = match ml with
          | JInt n => Z.to_nat n
          | JBool true => 1%nat
          | _ => 0%nat
          end.
Proof.
  unfold handle_complex_type. intros H.
  destruct field as [| | | | | |o]; try done.
  destruct (dict_get "type" o) as [t|] eqn:Ht.
  2: { unfold bind, getitem in H. by rewrite Ht in H. }
  rewrite (bind_ok _ _ _ _ _ (getitem_obj _ _ _ w Ht)) in H.
  destruct t as [| | | | | |ot]; try done. cbn [isinstance_dict] in H.
  destruct (dict_get "type" ot) as [inner|] eqn:Hinner.
  2: { unfold bind, getitem in H. by rewrite Hinner in H. }
  rewrite (bind_ok _ _ _ _ _ (getitem_obj _ _ _ w Hinner)) in H.
  destruct (eq_str inner "string") eqn:Hstr; [|done].
  destruct inner as [| | | |si| |]; try done.
  apply String.eqb_eq in Hstr as ->.
  cbn [andb contains] in H.
  destruct (dict_get "maxLength" ot) as [ml|] eqn:Hml.
  2: { by rewrite bool_decide_eq_false_2 in H by (by intros [? ?]). }
  rewrite bool_decide_eq_true_2 in H by by eexists.
  rewrite (bind_ok _ _ _ _ _ (getitem_obj _ _ _ w Hml)) in H.
  destruct ml as [|b|n| | | |]; try done.
  - destruct (lexify_question_marks (if b then 1%nat else 0%nat) w)
      as (s0 & w0 & Hs & Hlen & Hall).
    unfold str_mul in H. rewrite (bind_ok _ _ w _ w) in H by done.
    rewrite (bind_ok _ _ _ _ _ Hs) in H. unfold ret in H. simplify_eq.
    split; [done|]. exists o, ot, (JBool b).
    repeat split; try done; by destruct b.
  - destruct (lexify_question_marks (Z.to_nat n) w)
      as (s0 & w0 & Hs & Hlen & Hall).
    unfold str_mul in H. rewrite (bind_ok _ _ w _ w) in H by done.
    rewrite (bind_ok _ _ _ _ _ Hs) in H. unfold ret in H. simplify_eq.
    split; [done|]. exists o, ot, (JInt n). by repeat split.
Qed.

Lemma handle_complex_type_some_witness :
  str_forallb (λ c, str_mem c ascii_letters) "hE" = true
  ∧ ∃ o t ml,
      JObj [("name", JStr "code");
            ("type", JObj [("type", JStr "string"); ("maxLength", JInt 2)])]
      = JObj o
      ∧ dict_get "type" o = Some (JObj t)
      ∧ dict_get "type" t = Some (JStr "string")
      ∧ dict_get "maxLength" t = Some ml
      ∧ is_int ml = true
      ∧ String.length "hE"
        = match ml with
          | JInt n => Z.to_nat n
          | JBool true => 1%nat
          | _ => 0%nat
          end.
Proof.
  apply (handle_complex_type_some sample_generator
           (JObj [("name", JStr "code");
                  ("type", JObj [("type", JStr "string");
                                 ("maxLength", JInt 2)])])
           (world0 [] [7; 30]%N) "hE"
           (world0 [] [])).
  reflexivity.
Defined.
